(** * Ansible modules for vSphere: clone-from-template and OVF deployment

    A shallow embedding of [vmware_clone_template.py] and
    [vmware_ovf_deploy.py], followed by the properties of the two
    workflows.  The vCenter control plane and the external [ovftool]
    process are oracles: the modules only observe them by polling. *)

From Stdlib Require Import ZArith Lia.
From stdpp Require Import base option list strings gmap.

Open Scope string_scope.
Open Scope Z_scope.
Open Scope list_scope.

(** ** Python values, truthiness and formatting *)

(** The values the two modules put into a result payload. [VStderr] is the
    file object [sys.stderr], which the deploy module passes as a message. *)
Inductive pyval : Type :=
  | VBool (b : bool)
  | VStr (s : string)
  | VStderr.

#[global] Instance pyval_eq_dec : EqDecision pyval.
Proof. solve_decision. Defined.

(** [if name:] on an optional string parameter: [None] and the empty string
    are false. *)
Definition truthy (name : option string) : bool :=
  match name with
  | Some EmptyString => false
  | Some _ => true
  | None => false
  end.

(** [str(x)] and [%s] on an optional string. *)
Definition py_str (x : option string) : string :=
  match x with
  | Some s => s
  | None => "None"
  end.

(** The double-quote character of the command line templates. *)
Definition dq : string := String (Ascii.ascii_of_nat 34) EmptyString.

(** ** The AnsibleModule result protocol *)

(** Keyword arguments of [exit_json] / [fail_json]. *)
Abbreviation kwargs := (gmap string pyval).

(** How a module process ends: a success payload, a failure payload, an
    exception nobody caught, or the end of [main] with nothing reported. *)
Inductive Outcome : Type :=
  | ExitJson (kw : kwargs)
  | FailJson (kw : kwargs)
  | Uncaught (e : string)
  | NoPayload.

(** The exceptions the clone workflow can raise on its own data. *)
Inductive PyExc : Type :=
  | AttributeError (attr : string)
  | IndexError.

Definition exc_str (e : PyExc) : string :=
  match e with
  | AttributeError attr =>
      "'NoneType' object has no attribute '" +:+ attr +:+ "'"
  | IndexError => "list index out of range"
  end.

(** A statement either yields a value, raises an [Exception], or leaves the
    process through [exit_json] / [fail_json] ([SystemExit], which
    [except Exception] does not catch). *)
Inductive Res (A : Type) : Type :=
  | Val (a : A)
  | Raise (e : PyExc)
  | SysExit (o : Outcome).
Arguments Val {A} a.
Arguments Raise {A} e.
Arguments SysExit {A} o.

Definition exit_json {A} (kw : kwargs) : Res A := SysExit (ExitJson kw).
Definition fail_json {A} (kw : kwargs) : Res A := SysExit (FailJson kw).

Module vmware_clone_template.

(** *** Inventory and tasks, as the control plane presents them *)

Inductive vimtype : Type :=
  | Datacenter | Folder | Datastore | ClusterComputeResource
  | ResourcePool | VirtualMachine.

(** A managed object is a reference; its properties are read from the
    server on access. *)
Definition moref := nat.

Record Event : Type := mkEvent {
  _wsdlName : string;
  fullFormattedMessage : string
}.

Inductive IpGenerator : Type :=
  | DhcpIpGenerator
  | FixedIp (ipAddress : option string).

Record IPSettings : Type := mkIPSettings {
  ip : option IpGenerator;
  subnetMask : option string;
  gateway : list string
}.

Record AdapterMapping : Type := mkAdapterMapping {
  macAddress : option string;
  adapter : IPSettings
}.

(** [vim.vm.customization.Specification]: the adapter list is the part the
    module rewrites, [identity] stands for the rest (kept as it is). *)
Record Specification : Type := mkSpecification {
  identity : option string;
  nicSettingMap : list AdapterMapping
}.

Record RelocateSpec : Type := mkRelocateSpec {
  rs_datastore : option moref;
  rs_pool : option moref
}.

Record CloneSpec : Type := mkCloneSpec {
  location : RelocateSpec;
  powerOn : bool;
  customization : Specification
}.

(** Calls made to the control plane, and sleeps, in program order. *)
Inductive Action : Type :=
  | CreateContainerView (t : vimtype)
  | GetCustomizationSpec (name : string)
  | Clone (template : moref) (folder : option moref) (name : string)
      (spec : CloneSpec)
  | ReadTaskState
  | QueryEvents (entity : option moref)
  | Sleep (secs : Z).

(** The control plane.  [view n t] is the content of the n-th container
    view the run creates, [task_state n] the n-th read of the clone task's
    [info.state], [events n vm] the answer to the n-th event query. *)
Record World : Type := mkWorld {
  view : nat -> vimtype -> list moref;
  name : moref -> string;
  vmFolder : moref -> moref;
  resourcePool : moref -> moref;
  datastore : moref -> list moref;
  info_name : moref -> string;
  customizationSpecs : string -> option Specification;
  task_state : nat -> string;
  task_result : moref;
  events : nat -> option moref -> list Event
}.

Definition MAX_WAIT_TIME : Z := 3600.

(** *** [get_obj]: the loop over [container.view] *)

Section get_obj.
Context {A : Type} (name_of : A -> string).

Fixpoint get_obj_view (view : list A) (name : option string) : option A :=
  match view with
  | [] => None
  | c :: rest =>
      if truthy name then
        if bool_decide (Some (name_of c) = name) then Some c
        else get_obj_view rest name
      else Some c
  end.
End get_obj.

(** *** [check_events] *)

(** The keyword arguments [changed=True, msg=prefix % current_status]. *)
Definition changed_msg (prefix current_status : string) : kwargs :=
  {[ "changed" := VBool true; "msg" := VStr (prefix +:+ current_status) ]}.

(** The [for event in events] loop, entered with [current_status]: every
    event first overwrites the status, then its type is tested. *)
Fixpoint check_events_from (current_status : string) (events : list Event)
  : Res string :=
  match events with
  | [] => Val current_status
  | event :: rest =>
      let event_type := _wsdlName event in
      let current_status := fullFormattedMessage event in
      if bool_decide (event_type = "CustomizationFailed") then
        fail_json (changed_msg "Customization Failed - " current_status)
      else if bool_decide (event_type = "CustomizationLinuxIdentityFailed") then
        fail_json (changed_msg
          "Customization Failed - Linux Identity Failed - " current_status)
      else if bool_decide (event_type = "CustomizationNetworkSetupFailed") then
        fail_json (changed_msg
          "Customization Failed - Network Setup Failed - " current_status)
      else if bool_decide (event_type = "CustomizationSysprepFailed") then
        fail_json (changed_msg
          "Customization Failed - Sysprep Failed - " current_status)
      else if bool_decide (event_type = "CustomizationUnknownFailure") then
        fail_json (changed_msg
          "Customization Failed - Unknown Failure - " current_status)
      else if bool_decide (event_type = "CustomizationSucceeded") then
        exit_json (changed_msg
          "Successfully Deployed and customized OS - " current_status)
      else check_events_from current_status rest
  end.

Definition check_events (events : list Event) : Res string :=
  check_events_from "" events.

(** *** Effects: state passing over the control plane

    The state counts the views created, the task-state reads and the event
    queries made so far (each indexes the corresponding oracle) and keeps
    the trace of calls.  A computation returns [None] when the fuel of a
    polling loop runs out: the run is still waiting. *)

Record St : Type := mkSt {
  views : nat;
  reads : nat;
  queries : nat;
  trace : list Action
}.

Definition init : St := mkSt 0 0 0 [].

Definition M (A : Type) : Type := St -> option (St * Res A).

Definition ret {A} (a : A) : M A := fun s => Some (s, Val a).

Definition bind {A B} (m : M A) (k : A -> M B) : M B := fun s =>
  match m s with
  | None => None
  | Some (s', Val a) => k a s'
  | Some (s', Raise e) => Some (s', Raise e)
  | Some (s', SysExit o) => Some (s', SysExit o)
  end.

Definition lift {A} (r : Res A) : M A := fun s => Some (s, r).

Definition raise {A} (e : PyExc) : M A := lift (Raise e).

(** [try: m except Exception as e: h e] *)
Definition try_except {A} (m : M A) (h : PyExc -> M A) : M A := fun s =>
  match m s with
  | Some (s', Raise e) => h e s'
  | r => r
  end.

Declare Scope py_scope.
Delimit Scope py_scope with py.
Notation "x <- m ;; k" := (bind m (fun x => k))
  (at level 100, m at next level, right associativity) : py_scope.
Notation "m ;; k" := (bind m (fun _ => k))
  (at level 100, right associativity) : py_scope.
Open Scope py_scope.

(** Append a call to the trace. *)
Definition log (a : Action) (s : St) : St :=
  mkSt (views s) (reads s) (queries s) (trace s ++ [a]).

(** [get_obj(content, [t], name)]: create the container view, then loop
    over it. *)
Definition get_obj (w : World) (t : vimtype) (name : option string)
  : M (option moref) := fun s =>
  let container := view w (views s) t in
  Some (log (CreateContainerView t)
          (mkSt (S (views s)) (reads s) (queries s) (trace s)),
        Val (get_obj_view (vmware_clone_template.name w) container name)).

(** [get_events]: look the machine up by name and query the events of
    that entity alone (the lookup result may be [None]). *)
Definition get_events (w : World) (vm_name : string) : M (list Event) :=
  vm <- get_obj w VirtualMachine (Some vm_name) ;;
  fun s =>
    Some (log (QueryEvents vm)
            (mkSt (views s) (reads s) (S (queries s)) (trace s)),
          Val (events w (queries s) vm)).

(** One evaluation of [task.info.state]. *)
Definition read_task_state (w : World) : M string := fun s =>
  Some (log ReadTaskState (mkSt (views s) (S (reads s)) (queries s) (trace s)),
        Val (task_state w (reads s))).

(** [time.sleep(secs)] *)
Definition sleep (secs : Z) : M unit := fun s =>
  Some (log (Sleep secs) s, Val tt).

(** [content.customizationSpecManager.GetCustomizationSpec(name)] *)
Definition call_GetCustomizationSpec (w : World) (name : string)
  : M (option Specification) := fun s =>
  Some (log (GetCustomizationSpec name) s, Val (customizationSpecs w name)).

(** [template.Clone(folder=..., name=..., spec=...)]; the task it returns
    is the one [task_state] reports on. *)
Definition call_Clone (template : moref) (folder : option moref)
    (name : string) (spec : CloneSpec) : M unit := fun s =>
  Some (log (Clone template folder name spec) s, Val tt).

(** [wait_for_task]: one turn of the loop reads the state for the
    ['success'] test and, if that fails, again for the ['error'] test.  On
    ['error'] the flag ends the loop and the function falls off its end,
    returning [None]. *)
Fixpoint wait_for_task (fuel : nat) (w : World) : M (option moref) :=
  match fuel with
  | O => fun _ => None
  | S fuel' =>
      st1 <- read_task_state w ;;
      if bool_decide (st1 = "success") then ret (Some (task_result w))
      else
        st2 <- read_task_state w ;;
        if bool_decide (st2 = "error") then ret None
        else wait_for_task fuel' w
  end.

(** The polling loop at the end of [clone_vm]. *)
Fixpoint customization_wait (fuel : nat) (w : World) (vm_name : string)
    (wait_time : Z) : M unit :=
  match fuel with
  | O => fun _ => None
  | S fuel' =>
      evs <- get_events w vm_name ;;
      current_status <- lift (check_events evs) ;;
      sleep 15 ;;
      let wait_time := wait_time + 15 in
      if bool_decide (wait_time > MAX_WAIT_TIME) then
        lift (fail_json (changed_msg
          "Exceeded Max Wait Time. Current state " current_status))
      else customization_wait fuel' w vm_name wait_time
  end.

(** The adapter mapping built on the inline path, and the two assignments
    both paths share: a fresh [FixedIp] whose address is [str(ip_address)]. *)
Definition blank_guest_map : AdapterMapping :=
  mkAdapterMapping None (mkIPSettings (Some (FixedIp None)) None []).

Definition set_fixed_ip (guest_map : AdapterMapping) (ip_address : option string)
  : AdapterMapping :=
  mkAdapterMapping (macAddress guest_map)
    (mkIPSettings (Some (FixedIp (Some (py_str ip_address))))
       (subnetMask (adapter guest_map)) (gateway (adapter guest_map))).

(** *** [clone_vm] *)

(** The module parameters [main] reads ([type='str'] without a default is
    [None] when omitted); the connection parameters are used only to open
    the session. *)
Record Params : Type := mkParams {
  vm_name : string;
  template_name : string;
  datacenter_name : option string;
  vm_folder : option string;
  datastore_name : option string;
  cluster_name : option string;
  resource_pool : option string;
  power_on : bool;
  customization_template : option string;
  ip_address : option string
}.

(** The [if customization_template:] block and its [else]: the looked-up
    item (what the variable holds afterwards), the specification and the
    adapter mapping to rewrite. *)
Definition customization_source (w : World)
    (customization_template : option string)
  : M (option Specification * Specification * AdapterMapping) :=
  if truthy customization_template then
    item <- call_GetCustomizationSpec w (py_str customization_template) ;;
    match item with
    | None =>
        lift (fail_json
          {[ "msg" := VStr ("Customization Template " +:+ py_str None
                             +:+ " not found") ]})
    | Some customization_spec =>
        match nicSettingMap customization_spec with
        | guest_map :: _ => ret (item, customization_spec, guest_map)
        | [] => raise IndexError
        end
    end
  else
    ret (None, mkSpecification None [], blank_guest_map).

Definition clone_vm (fuel : nat) (w : World) (template : moref) (p : Params)
  : M unit :=
  datacenter <- get_obj w Datacenter (datacenter_name p) ;;
  destfolder <-
    (if truthy (vm_folder p) then get_obj w Folder (vm_folder p)
     else match datacenter with
          | Some d => ret (Some (vmFolder w d))
          | None => raise (AttributeError "vmFolder")
          end) ;;
  datastore <-
    (if truthy (datastore_name p) then get_obj w Datastore (datastore_name p)
     else match vmware_clone_template.datastore w template with
          | d0 :: _ => get_obj w Datastore (Some (info_name w d0))
          | [] => raise IndexError
          end) ;;
  cluster <- get_obj w ClusterComputeResource (cluster_name p) ;;
  resource_pool <-
    (if truthy (resource_pool p) then get_obj w ResourcePool (resource_pool p)
     else match cluster with
          | Some c => ret (Some (resourcePool w c))
          | None => raise (AttributeError "resourcePool")
          end) ;;
  src <- customization_source w (customization_template p) ;;
  let '(customization_template, customization_spec, guest_map) := src in
  let guest_map := set_fixed_ip guest_map (ip_address p) in
  let customization_spec :=
    mkSpecification (identity customization_spec) [guest_map] in
  let relospec := mkRelocateSpec datastore resource_pool in
  let clonespec := mkCloneSpec relospec (power_on p) customization_spec in
  call_Clone template destfolder (vm_name p) clonespec ;;
  wait_for_task fuel w ;;
  if bool_decide (is_Some customization_template) then
    customization_wait fuel w (vm_name p) 0
  else ret tt.

(** [main] from the point where the session is open.  A run that finishes
    gives the trace of its calls and how the process ended. *)
Definition main_body (fuel : nat) (w : World) (p : Params) : M unit :=
  template <- get_obj w VirtualMachine (Some (template_name p)) ;;
  match template with
  | Some template =>
      try_except (clone_vm fuel w template p)
        (fun e => lift (fail_json
           {[ "msg" := VStr ("Some Error " +:+ exc_str e) ]}))
  | None =>
      lift (fail_json
        {[ "msg" := VStr ("Template " +:+ template_name p +:+ " not found") ]})
  end.

Definition main (fuel : nat) (w : World) (p : Params)
  : option (list Action * Outcome) :=
  match main_body fuel w p init with
  | None => None
  | Some (s, Val _) => Some (trace s, NoPayload)
  | Some (s, Raise e) => Some (trace s, Uncaught (exc_str e))
  | Some (s, SysExit o) => Some (trace s, o)
  end.

Definition is_Clone (a : Action) : bool :=
  match a with Clone _ _ _ _ => true | _ => false end.

Definition is_QueryEvents (a : Action) : bool :=
  match a with QueryEvents _ => true | _ => false end.

(** *** Vocabulary of the properties *)

(** What a computation yields from state [s], without the final state. *)
Definition result {A} (m : M A) (s : St) : option (Res A) := snd <$> m s.

(** The terminal customization events, by the names [check_events] tests. *)
Inductive TerminalEventKind : Type :=
  | Succeeded | Failed | LinuxIdentityFailed | NetworkSetupFailed
  | SysprepFailed | UnknownFailure.

Definition kinds : list TerminalEventKind :=
  [Succeeded; Failed; LinuxIdentityFailed; NetworkSetupFailed;
   SysprepFailed; UnknownFailure].

Definition kind_name (K : TerminalEventKind) : string :=
  match K with
  | Succeeded => "CustomizationSucceeded"
  | Failed => "CustomizationFailed"
  | LinuxIdentityFailed => "CustomizationLinuxIdentityFailed"
  | NetworkSetupFailed => "CustomizationNetworkSetupFailed"
  | SysprepFailed => "CustomizationSysprepFailed"
  | UnknownFailure => "CustomizationUnknownFailure"
  end.

Definition terminal_kind (event_type : string) : option TerminalEventKind :=
  head (filter (fun K => kind_name K = event_type) kinds).

Definition non_terminal (e : Event) : Prop :=
  terminal_kind (_wsdlName e) = None.

#[global] Instance non_terminal_dec e : Decision (non_terminal e).
Proof. unfold non_terminal. apply _. Defined.

(** The message prefix of each kind, and the outcome it is mapped to. *)
Definition kind_prefix (K : TerminalEventKind) : string :=
  match K with
  | Succeeded => "Successfully Deployed and customized OS - "
  | Failed => "Customization Failed - "
  | LinuxIdentityFailed => "Customization Failed - Linux Identity Failed - "
  | NetworkSetupFailed => "Customization Failed - Network Setup Failed - "
  | SysprepFailed => "Customization Failed - Sysprep Failed - "
  | UnknownFailure => "Customization Failed - Unknown Failure - "
  end.

Definition reported (K : TerminalEventKind) (text : string) : Outcome :=
  let kw : kwargs :=
    {[ "changed" := VBool true; "msg" := VStr (kind_prefix K +:+ text) ]} in
  match K with
  | Succeeded => ExitJson kw
  | _ => FailJson kw
  end.

(** The formatted text of the last event of a batch, empty for no event. *)
Definition last_status (evs : list Event) : string :=
  default "" (last (fullFormattedMessage <$> evs)).

(** The seconds slept along a trace, and its event queries. *)
Definition sleeps (tr : list Action) : list Z :=
  omap (fun a => match a with Sleep secs => Some secs | _ => None end) tr.

Definition event_queries (tr : list Action) : list Action :=
  filter (fun a => is_QueryEvents a = true) tr.

(** The batch an iteration of the polling loop fetches in state [s]. *)
Definition fetched (w : World) (vm_name : string) (s : St) : list Event :=
  events w (queries s)
    (get_obj_view (name w) (view w (views s) VirtualMachine) (Some vm_name)).

(** The state after one iteration that found no terminal event. *)
Definition polled (w : World) (vm_name : string) (s : St) : St :=
  mkSt (S (views s)) (reads s) (S (queries s))
    (trace s ++
       [CreateContainerView VirtualMachine;
        QueryEvents
          (get_obj_view (name w) (view w (views s) VirtualMachine)
             (Some vm_name));
        Sleep 15]).

(** [post m s Q]: from state [s] the computation [m] finishes, in a state
    and with a result that satisfy [Q]. *)
Definition post {A} (m : M A) (s : St) (Q : St -> Res A -> Prop) : Prop :=
  match m s with
  | Some (s', r) => Q s' r
  | None => False
  end.

(** [Q] carried through a bind: a value goes on, anything else ends the
    computation there. *)
Definition through {A B} (k : A -> M B) (Q : St -> Res B -> Prop)
  : St -> Res A -> Prop := fun s r =>
  match r with
  | Val a => post (k a) s Q
  | Raise e => Q s (Raise e)
  | SysExit o => Q s (SysExit o)
  end.

Definition is_view (a : Action) : bool :=
  match a with CreateContainerView _ => true | _ => false end.

(** *** Vocabulary of the polling properties *)

(** A turn of the [wait_for_task] loop that starts at read [r] goes round
    again: no ['success'] at the first test, no ['error'] at the second. *)
Definition idle_turn (w : World) (r : nat) : Prop :=
  task_state w r <> "success" /\ task_state w (S r) <> "error".

(** The state after [n] more reads of the task state and nothing else. *)
Definition after_reads (n : nat) (s : St) : St :=
  mkSt (views s) (reads s + n) (queries s)
    (trace s ++ replicate n ReadTaskState).

(** The state in which an iteration of the polling loop leaves when its
    batch holds a terminal event: the batch was fetched, no sleep follows. *)
Definition queried (w : World) (vm_name : string) (s : St) : St :=
  mkSt (S (views s)) (reads s) (S (queries s))
    (trace s ++
       [CreateContainerView VirtualMachine;
        QueryEvents
          (get_obj_view (name w) (view w (views s) VirtualMachine)
             (Some vm_name))]).

(** The two ways the polling loop ends. *)
Definition timed_out (o : Outcome) : Prop :=
  exists status,
    o = FailJson (changed_msg "Exceeded Max Wait Time. Current state " status).

Definition customization_ended (o : Outcome) : Prop :=
  exists K text, o = reported K text.

(** *** Vocabulary of the whole-run properties *)

(** [ensures m s Q]: if the computation [m] finishes from state [s], it does
    so in a state and with a result that satisfy [Q]. *)
Definition ensures {A} (m : M A) (s : St) (Q : St -> Res A -> Prop) : Prop :=
  forall s' r, m s = Some (s', r) -> Q s' r.

Definition onward {A B} (k : A -> M B) (Q : St -> Res B -> Prop)
  : St -> Res A -> Prop := fun s r =>
  match r with
  | Val a => ensures (k a) s Q
  | Raise e => Q s (Raise e)
  | SysExit o => Q s (SysExit o)
  end.

(** How the process ends for a result of [main]'s body. *)
Definition outcome_of (r : Res unit) : Outcome :=
  match r with
  | Val _ => NoPayload
  | Raise e => Uncaught (exc_str e)
  | SysExit o => o
  end.



(** The calls of the customization polling loop. *)
Definition is_poll (a : Action) : bool :=
  match a with
  | CreateContainerView VirtualMachine | QueryEvents _ | Sleep _ => true
  | _ => false
  end.

(** The number of clone requests in a trace. *)
Definition clone_requests (tr : list Action) : nat :=
  length (filter (fun a => is_Clone a = true) tr).

(** What a clone request of the run with parameters [p] looks like: the
    template found by name at the first lookup, the target name and the
    power-on flag of the parameters, and a customization with one adapter
    mapping whose address is the fixed [str(ip_address)]. *)
Definition requested (w : World) (p : Params) (a : Action) : Prop :=
  match a with
  | Clone template _ n spec =>
      get_obj_view (name w) (view w 0 VirtualMachine)
        (Some (template_name p)) = Some template /\
      n = vm_name p /\
      powerOn spec = power_on p /\
      exists guest_map,
        nicSettingMap (customization spec) = [guest_map] /\
        ip (adapter guest_map) =
          Some (FixedIp (Some (py_str (ip_address p))))
  | _ => True
  end.

End vmware_clone_template.

Module vmware_ovf_deploy.

(** The module parameters.  [network_map] is the dict read by key,
    [properties] the dict in its iteration order; [machine_output] has no
    default and is [None] when omitted. *)
Record Params : Type := mkParams {
  vm_name : string;
  accept_all_eulas : bool;
  data_store : string;
  disk_mode : string;
  network_map : gmap string string;
  enable_hidden_properties : bool;
  power_on : bool;
  wait_for_ip : bool;
  no_ssl_verify : bool;
  machine_output : option bool;
  properties : list (string * string);
  ovf_path : string;
  vcenter_username : string;
  vcenter_password : string;
  vcenter_host : string;
  vcenter_inventory_path : string
}.

(** What [module.run_command] gives back: the exit code with the captured
    streams, or [OSError] when the process cannot be started. *)
Inductive RunResult : Type :=
  | Completed (rc : Z) (out err : string)
  | OSError (e : string).

(** [command += token] when the flag is true. *)
Definition flag (b : bool) (token : string) (command : string) : string :=
  if b then command +:+ token else command.

(** The [for property in properties] loop. *)
Definition add_properties (properties : list (string * string))
    (command : string) : string :=
  foldl (fun command kv =>
           command +:+ "--prop:" +:+ kv.1 +:+ "=" +:+ kv.2 +:+ " ")
        command properties.

(** The command line, from the first assignment to [command] to the last.
    [vm_name] is bound to the one-element tuple [(params['vm_name'],)] and
    read back as [vm_name[0]].  A key missing from [network_map] is a
    [KeyError], whose text is the quoted key. *)
Definition build_command (p : Params) : string + string :=
  match network_map p !! "ovf_name" with
  | None => inl "'ovf_name'"
  | Some ovf_name =>
      match network_map p !! "target_name" with
      | None => inl "'target_name'"
      | Some target_name =>
          let command :=
            "ovftool " +:+
            "--name=" +:+ dq +:+ vm_name p +:+ dq +:+ " " +:+
            "--datastore=" +:+ dq +:+ data_store p +:+ dq +:+ " " +:+
            "--diskMode=" +:+ disk_mode p +:+ " " +:+
            "--net:" +:+ dq +:+ ovf_name +:+ dq +:+ "=" +:+
               dq +:+ target_name +:+ dq +:+ " " in
          let command := flag (accept_all_eulas p) "--acceptAllEulas " command in
          let command :=
            flag (enable_hidden_properties p) "--X:enableHiddenProperties "
              command in
          let command := flag (no_ssl_verify p) "--noSSLVerify " command in
          let command :=
            flag (default false (machine_output p)) "--machineOutput " command in
          let command := flag (power_on p) "--powerOn " command in
          let command := flag (wait_for_ip p) "--X:waitForIp " command in
          let command := add_properties (properties p) command in
          inr (command +:+ ovf_path p +:+ " " +:+
               "vi://" +:+ dq +:+ vcenter_username p +:+ dq +:+ ":" +:+
               dq +:+ vcenter_password p +:+ dq +:+ "@" +:+
               vcenter_host p +:+ vcenter_inventory_path p)
      end
  end.

(** [main]: the commands handed to [run_command], and how the process
    ended. *)
Definition main (check_mode : bool) (run_command : string -> RunResult)
    (p : Params) : list string * Outcome :=
  match build_command p with
  | inl key => ([], Uncaught key)
  | inr command =>
      if check_mode then
        ([], ExitJson {[ "changed" := VBool true; "command" := VStr command ]})
      else
        match run_command command with
        | Completed rc out err =>
            if bool_decide (rc < 0) then
              ([command], FailJson {[ "msg" := VStr err ]})
            else
              ([command],
               ExitJson {[ "changed" := VBool true; "stdout" := VStr out ]})
        | OSError _ => ([command], FailJson {[ "msg" := VStderr ]})
        end
  end.

(** [s] ends with [tail]. *)
Definition ends_with (s tail : string) : Prop :=
  String.list_ascii_of_string tail `suffix_of` String.list_ascii_of_string s.

(** *** Vocabulary of the command-line properties *)







End vmware_ovf_deploy.

(** ** A small vCenter and two playbooks, for concrete runs *)

Module scenarios.
Import vmware_clone_template.

(** One datacenter (1) with its VM folder (2), a datastore (3), a cluster
    (4) with its resource pool (5), the template (10) and a virtual machine
    that already bears the target name (11). *)
Definition inventory (t : vimtype) : list moref :=
  match t with
  | Datacenter => [1%nat]
  | Folder => [2%nat]
  | Datastore => [3%nat]
  | ClusterComputeResource => [4%nat]
  | ResourcePool => [5%nat]
  | VirtualMachine => [10%nat; 11%nat]
  end.

Definition names (m : moref) : string :=
  match m with
  | 1%nat => "DC1"
  | 2%nat => "vm"
  | 3%nat => "ds1"
  | 4%nat => "cl1"
  | 5%nat => "Resources"
  | 10%nat => "centos7-tmpl"
  | 11%nat => "web01"
  | _ => "unnamed"
  end.

Definition linux_static : Specification :=
  mkSpecification (Some "LinuxPrep")
    [mkAdapterMapping None
       (mkIPSettings (Some DhcpIpGenerator) (Some "255.255.255.0")
          ["10.0.0.1"])].

Definition vcenter (task_state : nat -> string)
    (events : nat -> option moref -> list Event) : World :=
  mkWorld (fun _ => inventory) names (fun _ => 2%nat) (fun _ => 5%nat)
    (fun _ => [3%nat]) (fun _ => "ds1")
    (fun n => if bool_decide (n = "linux-static") then Some linux_static
              else None)
    task_state 12%nat events.

(** The clone task is seen running at its first three reads, then in the
    error state. *)
Definition failing_task (n : nat) : string :=
  if bool_decide (n < 3)%nat then "running" else "error".

Definition succeeding_task (n : nat) : string :=
  if bool_decide (n < 3)%nat then "running" else "success".

(** The event list of the machine that bears the target name. *)
Definition customized_before (n : nat) (vm : option moref) : list Event :=
  [mkEvent "VmPoweredOnEvent" "web01 is powered on";
   mkEvent "CustomizationSucceeded" "Customization of web01 succeeded"].

Definition only_progress (n : nat) (vm : option moref) : list Event :=
  [mkEvent "VmBeingClonedEvent" "Cloning centos7-tmpl to web01";
   mkEvent "CustomizationStartedEvent" "Started customization of web01"].

(** Two batches of progress events, then a batch in which sysprep has
    failed. *)
Definition sysprep_fails (n : nat) (vm : option moref) : list Event :=
  if bool_decide (n < 2)%nat then only_progress n vm
  else only_progress n vm ++
       [mkEvent "CustomizationSysprepFailed" "Sysprep did not finish";
        mkEvent "VmPoweredOffEvent" "web01 is powered off"].


Definition playbook (customization_template : option string) : Params :=
  mkParams "web01" "centos7-tmpl" None None None None None true
    customization_template (Some "10.0.0.21").

Definition deploy_playbook : vmware_ovf_deploy.Params :=
  vmware_ovf_deploy.mkParams "x" false "ds1" "thin"
    {[ "ovf_name" := "A"; "target_name" := "B" ]}
    false false false false (Some false) [("k", "v")]
    "/srv/ova/app.ova" "admin" "secret" "vc01" "/DC1/host/cl1".

End scenarios.

(** * Properties of the clone workflow *)

Module clone_facts.
Import vmware_clone_template.

(** ** Object lookup *)

Section get_obj_facts.
Context {A : Type} (name_of : A -> string).

Lemma get_obj_view_unnamed (view : list A) (name : option string) :
  truthy name = false -> get_obj_view name_of view name = head view.
Proof. intros Hn. destruct view as [|c rest]; simpl; [done|]. by rewrite Hn. Qed.

Lemma get_obj_view_named (view : list A) (name : option string) :
  truthy name = true ->
  get_obj_view name_of view name =
  head (filter (fun c => Some (name_of c) = name) view).
Proof.
  intros Hn. induction view as [|c rest IH]; simpl; [done|].
  rewrite Hn, filter_cons. case_bool_decide; case_decide; done.
Qed.
End get_obj_facts.

(** ** Event scanning *)

Lemma terminal_kind_name (K : TerminalEventKind) :
  terminal_kind (kind_name K) = Some K.
Proof. by destruct K. Qed.

Lemma terminal_kind_None (event_type : string) (K : TerminalEventKind) :
  terminal_kind event_type = None -> event_type <> kind_name K.
Proof. intros Hnone ->. by rewrite terminal_kind_name in Hnone. Qed.

Lemma check_events_from_skip (cs : string) (e : Event) (rest : list Event) :
  non_terminal e ->
  check_events_from cs (e :: rest) =
  check_events_from (fullFormattedMessage e) rest.
Proof.
  intros Hq. simpl.
  rewrite !bool_decide_eq_false_2; [done|..].
  - apply (terminal_kind_None _ Succeeded Hq).
  - apply (terminal_kind_None _ UnknownFailure Hq).
  - apply (terminal_kind_None _ SysprepFailed Hq).
  - apply (terminal_kind_None _ NetworkSetupFailed Hq).
  - apply (terminal_kind_None _ LinuxIdentityFailed Hq).
  - apply (terminal_kind_None _ Failed Hq).
Qed.

Lemma check_events_from_terminal (cs : string) (e : Event)
    (rest : list Event) (K : TerminalEventKind) :
  _wsdlName e = kind_name K ->
  check_events_from cs (e :: rest) =
  SysExit (reported K (fullFormattedMessage e)).
Proof. intros HK. simpl. rewrite HK. by destruct K. Qed.

Lemma check_events_from_quiet (cs : string) (evs : list Event) :
  Forall non_terminal evs ->
  check_events_from cs evs =
  Val (default cs (last (fullFormattedMessage <$> evs))).
Proof.
  intros Hq. revert cs. induction Hq as [|e rest He _ IH]; intros cs; [done|].
  rewrite check_events_from_skip, IH by done.
  rewrite fmap_cons, last_cons. by destruct (last _).
Qed.

(** C2. When the events before [e] in a batch are all non-terminal and [e]
    is a terminal event of kind [K], scanning the batch reports the outcome
    mapped to [K] (success for [Succeeded], failure for the five others),
    with the prefix of [K] followed by the formatted text of [e], whatever
    events follow [e]: the first terminal event in delivered order decides. *)
Theorem check_events_first_terminal (pre post : list Event) (e : Event)
    (K : TerminalEventKind) :
  Forall non_terminal pre ->
  _wsdlName e = kind_name K ->
  check_events (pre ++ e :: post) =
  SysExit (reported K (fullFormattedMessage e)).
Proof.
  unfold check_events. generalize "" as cs.
  intros cs Hpre HK. revert cs.
  induction Hpre as [|x pre Hx _ IH]; intros cs.
  - by apply check_events_from_terminal.
  - rewrite <- app_comm_cons, check_events_from_skip by done. apply IH.
Qed.

Lemma check_events_first_terminal_witness :
  Forall non_terminal
    [mkEvent "VmBeingClonedEvent" "Cloning web01";
     mkEvent "CustomizationStartedEvent" "Started customization"] /\
  _wsdlName (mkEvent "CustomizationNetworkSetupFailed" "eth0 is down") =
    kind_name NetworkSetupFailed /\
  check_events
    ([mkEvent "VmBeingClonedEvent" "Cloning web01";
      mkEvent "CustomizationStartedEvent" "Started customization"] ++
     mkEvent "CustomizationNetworkSetupFailed" "eth0 is down" ::
     [mkEvent "CustomizationSucceeded" "Customization done"]) =
  SysExit (FailJson
    {[ "changed" := VBool true;
       "msg" := VStr
         "Customization Failed - Network Setup Failed - eth0 is down" ]}).
Proof.
  assert (Hpre : Forall non_terminal
    [mkEvent "VmBeingClonedEvent" "Cloning web01";
     mkEvent "CustomizationStartedEvent" "Started customization"])
    by (repeat constructor).
  split; [exact Hpre|]. split; [reflexivity|].
  apply (check_events_first_terminal _ _
           (mkEvent "CustomizationNetworkSetupFailed" "eth0 is down")
           NetworkSetupFailed Hpre).
  reflexivity.
Defined.

(** C6, as the code has it. A lookup goes through the candidates in
    inventory order. With a name that is neither null nor empty the result
    is the first candidate of exactly that name; with a null or an empty
    name it is the first candidate; it is null when the inventory is empty
    or, for such a name, when no candidate bears it. *)
Theorem get_obj_first_match (w : World) (t : vimtype) (name : option string)
    (s : St) :
  let candidates := view w (views s) t in
  result (get_obj w t name) s =
  Some (Val (if truthy name
             then head (filter (fun c => Some (vmware_clone_template.name w c) = name)
                          candidates)
             else head candidates)).
Proof.
  unfold result, get_obj. simpl. do 2 f_equal.
  destruct (truthy name) eqn:Hn.
  - by apply get_obj_view_named.
  - by apply get_obj_view_unnamed.
Qed.

(** C6 as stated fails for the empty string, a name that is not null: the
    lookup returns the first candidate, whose name is not the one given,
    although a candidate of that very name comes later. *)
Lemma get_obj_exact_name_counterexample :
  ~ (forall r : string,
       get_obj_view id ["web01"; ""] (Some "") = Some r -> id r = "").
Proof. intros H. specialize (H "web01" eq_refl). discriminate H. Qed.

(** C9. With the empty string as name and at least one candidate, the
    lookup returns the first candidate, exactly as with no name at all; it
    does not look for a candidate named by the empty string. *)
Theorem get_obj_empty_string_name {A : Type} (name_of : A -> string) (c : A)
    (rest : list A) :
  get_obj_view name_of (c :: rest) (Some "") = Some c /\
  get_obj_view name_of (c :: rest) (Some "") =
    get_obj_view name_of (c :: rest) None.
Proof. split; reflexivity. Qed.

(** ** The polling loop *)

Lemma customization_wait_step (w : World) (vm : string) (fuel : nat)
    (wt : Z) (s : St) (status : string) :
  check_events (fetched w vm s) = Val status ->
  customization_wait (S fuel) w vm wt s =
  if bool_decide (wt + 15 > MAX_WAIT_TIME)
  then Some (polled w vm s,
             SysExit (FailJson (changed_msg
               "Exceeded Max Wait Time. Current state " status)))
  else customization_wait fuel w vm (wt + 15) (polled w vm s).
Proof.
  intros Hev. unfold fetched in Hev.
  cbn [customization_wait].
  unfold bind, get_events, bind, get_obj, lift, sleep, log.
  cbn [views reads queries trace]. rewrite Hev.
  cbn [views reads queries trace]. rewrite <- !app_assoc.
  unfold polled, lift. by case_bool_decide.
Qed.

Lemma iter_polled_swap (w : World) (vm : string) (n : nat) (s : St) :
  Nat.iter n (polled w vm) (polled w vm s) =
  polled w vm (Nat.iter n (polled w vm) s).
Proof. induction n as [|n IH]; [done|]. simpl. by rewrite IH. Qed.

Section quiet_stream.
Context (w : World) (vm : string).
Hypothesis quiet : forall n o, Forall non_terminal (events w n o).

Lemma customization_wait_quiet (r fuel : nat) (wt : Z) (s : St) :
  wt + 15 * Z.of_nat r = MAX_WAIT_TIME ->
  customization_wait fuel w vm wt s =
  if decide (r < fuel)%nat
  then Some (Nat.iter (S r) (polled w vm) s,
             SysExit (FailJson (changed_msg
               "Exceeded Max Wait Time. Current state "
               (last_status (fetched w vm (Nat.iter r (polled w vm) s))))))
  else None.
Proof.
  revert fuel wt s. induction r as [|r IH]; intros fuel wt s Hwt.
  - destruct fuel as [|fuel]; [done|].
    rewrite (customization_wait_step _ _ _ _ _ (last_status (fetched w vm s))).
    + rewrite bool_decide_eq_true_2 by (unfold MAX_WAIT_TIME in *; lia).
      rewrite decide_True by lia. done.
    + unfold check_events, last_status. apply check_events_from_quiet, quiet.
  - destruct fuel as [|fuel]; [done|].
    rewrite (customization_wait_step _ _ _ _ _ (last_status (fetched w vm s))).
    + rewrite bool_decide_eq_false_2 by (unfold MAX_WAIT_TIME in *; lia).
      rewrite IH by lia.
      destruct (decide (r < fuel)%nat); [rewrite decide_True by lia
                                        |rewrite decide_False by lia]; [|done].
      rewrite !iter_polled_swap. do 2 f_equal.
    + unfold check_events, last_status. apply check_events_from_quiet, quiet.
Qed.
End quiet_stream.

Lemma iter_polled_counts (w : World) (vm : string) (n : nat) (s : St) :
  let s' := Nat.iter n (polled w vm) s in
  views s' = (views s + n)%nat /\ reads s' = reads s /\
  queries s' = (queries s + n)%nat /\
  sleeps (trace s') = sleeps (trace s) ++ replicate n 15 /\
  length (event_queries (trace s')) =
    (length (event_queries (trace s)) + n)%nat.
Proof.
  induction n as [|n (Hv & Hr & Hq & Hs & He)]; simpl.
  - rewrite !Nat.add_0_r, app_nil_r. done.
  - rewrite Hv, Hr, Hq. repeat split; try lia.
    + unfold sleeps in *. rewrite omap_app, Hs. simpl.
      by rewrite <- app_assoc, replicate_cons_app.
    + unfold event_queries in *. rewrite filter_app, length_app, He.
      simpl. lia.
Qed.

(** C3. When no batch ever holds a terminal event, the polling loop started
    at [wait_time = 0] sleeps 15 seconds after each observation and fails
    at the end of the 241st one, the first for which the accumulated time
    (15 * 241 = 3615) exceeds [MAX_WAIT_TIME] = 3600: with fuel for fewer
    than 241 iterations it is still waiting, with fuel for 241 or more it
    has made exactly 241 event queries and 241 sleeps of 15 seconds and
    ends in a failure whose message carries the status text of the last
    batch observed. *)
Theorem customization_wait_timeout (w : World) (vm : string) (fuel : nat)
    (s : St) :
  (forall n o, Forall non_terminal (events w n o)) ->
  let s' := Nat.iter 241 (polled w vm) s in
  let status := last_status (fetched w vm (Nat.iter 240 (polled w vm) s)) in
  customization_wait fuel w vm 0 s =
    (if decide (241 <= fuel)%nat
     then Some (s', SysExit (FailJson
            {[ "changed" := VBool true;
               "msg" := VStr ("Exceeded Max Wait Time. Current state "
                              +:+ status) ]}))
     else None) /\
  queries s' = (queries s + 241)%nat /\
  length (event_queries (trace s')) =
    (length (event_queries (trace s)) + 241)%nat /\
  sleeps (trace s') = sleeps (trace s) ++ replicate 241 15 /\
  15 * 240 <= MAX_WAIT_TIME < 15 * 241.
Proof.
  intros quiet s' status.
  destruct (iter_polled_counts w vm 241 s) as (_ & _ & Hq & Hs & He).
  split; [|by repeat split].
  rewrite (customization_wait_quiet w vm quiet 240) by reflexivity.
  destruct (decide (240 < fuel)%nat);
    [rewrite decide_True by lia|rewrite decide_False by lia]; done.
Qed.

Lemma customization_wait_timeout_witness :
  (forall n o, Forall non_terminal
     (events (scenarios.vcenter scenarios.succeeding_task
                scenarios.only_progress) n o)) /\
  customization_wait 241
    (scenarios.vcenter scenarios.succeeding_task scenarios.only_progress)
    "web01" 0 init =
  Some (Nat.iter 241
          (polled (scenarios.vcenter scenarios.succeeding_task
                     scenarios.only_progress) "web01") init,
        SysExit (FailJson
          {[ "changed" := VBool true;
             "msg" := VStr ("Exceeded Max Wait Time. Current state " +:+
                            "Started customization of web01") ]})).
Proof.
  assert (Hq : forall n o, Forall non_terminal
     (events (scenarios.vcenter scenarios.succeeding_task
                scenarios.only_progress) n o))
    by (intros n o; repeat constructor).
  split; [exact Hq|].
  exact (proj1 (customization_wait_timeout _ "web01" 241 init Hq)).
Defined.

(** C10. A batch without terminal event makes [check_events] return the
    formatted text of its last event (each event overwrites the status of
    the one before), and the empty string when the batch is empty; when the
    loop then runs over its time budget, the failure message is the fixed
    prefix followed by exactly that returned text. *)
Theorem check_events_current_status (w : World) (vm : string) (fuel : nat)
    (wt : Z) (s : St) (evs pre : list Event) (e : Event) :
  Forall non_terminal evs ->
  fetched w vm s = evs ->
  wt + 15 > MAX_WAIT_TIME ->
  check_events evs = Val (last_status evs) /\
  last_status (pre ++ [e]) = fullFormattedMessage e /\
  check_events [] = Val "" /\
  result (customization_wait (S fuel) w vm wt) s =
    Some (SysExit (FailJson
      {[ "changed" := VBool true;
         "msg" := VStr ("Exceeded Max Wait Time. Current state "
                        +:+ last_status evs) ]})).
Proof.
  intros Hq Hev Hwt.
  assert (Hce : check_events evs = Val (last_status evs))
    by (by apply check_events_from_quiet).
  split; [done|]. split.
  { unfold last_status. rewrite fmap_app. simpl. by rewrite last_snoc. }
  split; [done|].
  unfold result.
  rewrite (customization_wait_step w vm fuel wt s (last_status evs))
    by (by rewrite Hev).
  by rewrite bool_decide_eq_true_2.
Qed.

Lemma check_events_current_status_witness :
  Forall non_terminal (scenarios.only_progress 0 (Some 11%nat)) /\
  3600 + 15 > MAX_WAIT_TIME /\
  result (customization_wait 1
            (scenarios.vcenter scenarios.succeeding_task
               scenarios.only_progress) "web01" 3600) init =
    Some (SysExit (FailJson
      {[ "changed" := VBool true;
         "msg" := VStr ("Exceeded Max Wait Time. Current state " +:+
                        "Started customization of web01") ]})).
Proof.
  assert (Hq : Forall non_terminal (scenarios.only_progress 0 (Some 11%nat)))
    by (repeat constructor).
  assert (Hwt : 3600 + 15 > MAX_WAIT_TIME) by reflexivity.
  split; [exact Hq|]. split; [exact Hwt|].
  exact (proj2 (proj2 (proj2
    (check_events_current_status
       (scenarios.vcenter scenarios.succeeding_task scenarios.only_progress)
       "web01" 0 3600 init _ [] (mkEvent "" "") Hq eq_refl Hwt)))).
Defined.

(** ** Whole runs *)

Lemma post_bind {A B} (m : M A) (k : A -> M B) (s : St)
    (Q : St -> Res B -> Prop) :
  post m s (through k Q) -> post (bind m k) s Q.
Proof.
  unfold post, through, bind.
  destruct (m s) as [[s' [a|e|o]]|]; [|done..].
  unfold post. by destruct (k a s') as [[? ?]|].
Qed.

Lemma post_try_except {A} (m : M A) (h : PyExc -> M A) (s : St)
    (Q : St -> Res A -> Prop) :
  post m s (fun s' r => match r with
                        | Raise e => post (h e) s' Q
                        | _ => Q s' r
                        end) ->
  post (try_except m h) s Q.
Proof.
  unfold post, try_except.
  destruct (m s) as [[s' [a|e|o]]|]; try done.
Qed.

Lemma post_get_obj (w : World) (t : vimtype) (name : option string) (s : St)
    (Q : St -> Res (option moref) -> Prop) :
  (forall o, Q (mkSt (S (views s)) (reads s) (queries s)
                  (trace s ++ [CreateContainerView t])) (Val o)) ->
  post (get_obj w t name) s Q.
Proof. intros HQ. unfold post, get_obj, log. apply HQ. Qed.

Lemma post_mono {A} (m : M A) (s : St) (Q Q' : St -> Res A -> Prop) :
  post m s Q -> (forall s' r, Q s' r -> Q' s' r) -> post m s Q'.
Proof.
  unfold post. destruct (m s) as [[s' r]|]; [|done]. intros HQ H. by apply H.
Qed.

Lemma post_lift {A} (r : Res A) (s : St) (Q : St -> Res A -> Prop) :
  Q s r -> post (lift r) s Q.
Proof. done. Qed.

Lemma post_ret {A} (a : A) (s : St) (Q : St -> Res A -> Prop) :
  Q s (Val a) -> post (ret a) s Q.
Proof. done. Qed.

Lemma post_call_GetCustomizationSpec (w : World) (name : string) (s : St)
    (Q : St -> Res (option Specification) -> Prop) :
  Q (log (GetCustomizationSpec name) s) (Val (customizationSpecs w name)) ->
  post (call_GetCustomizationSpec w name) s Q.
Proof. done. Qed.

Lemma views_no_lookup (tr : list Action) (n : string) :
  Forall (fun a => is_view a = true) tr -> GetCustomizationSpec n ∉ tr.
Proof.
  intros Hv Hin. rewrite Forall_forall in Hv. by apply Hv in Hin.
Qed.

Lemma views_no_clone (tr : list Action) :
  Forall (fun a => is_view a = true) tr ->
  Forall (fun a => is_Clone a = false) tr.
Proof. intros Hv. eapply Forall_impl; [exact Hv|]. by intros []. Qed.

Lemma views_no_clone_snoc (tr : list Action) (n : string) :
  Forall (fun a => is_view a = true) tr ->
  Forall (fun a => is_Clone a = false) (tr ++ [GetCustomizationSpec n]).
Proof.
  intros Hv. apply Forall_app. split; [by apply views_no_clone|].
  by repeat constructor.
Qed.

(** Symbolic execution of a computation under [post]. *)
Ltac exec :=
  repeat first
    [ progress unfold through
    | progress cbn beta iota
    | match goal with
      | |- post (bind _ _) _ _ => apply post_bind
      | |- post (get_obj _ _ _) _ _ => apply post_get_obj; intros ?
      | |- post (call_GetCustomizationSpec _ _) _ _ =>
          apply post_call_GetCustomizationSpec
      | |- post (try_except _ _) _ _ => apply post_try_except
      | |- post (if ?b then _ else _) _ _ => destruct b eqn:?
      | |- post (match ?o with _ => _ end) _ _ => destruct o eqn:?
      | |- post (ret _) _ _ => apply post_ret
      | |- post (raise _) _ _ => apply post_lift
      | |- post (lift _) _ _ => apply post_lift
      end ].

(** A missing customization spec stops [clone_vm]: either an exception was
    raised while only inventory views had been created, or the lookup was
    made and the module failed there; no clone request in either case. *)
Lemma clone_vm_missing_spec (fuel : nat) (w : World) (template : moref)
    (p : Params) (tname : string) (s : St) :
  customization_template p = Some tname ->
  tname <> "" ->
  customizationSpecs w tname = None ->
  Forall (fun a => is_view a = true) (trace s) ->
  post (clone_vm fuel w template p) s (fun s' r =>
    match r with
    | Val _ => False
    | Raise _ => Forall (fun a => is_view a = true) (trace s')
    | SysExit o =>
        o = FailJson
              {[ "msg" := VStr "Customization Template None not found" ]} /\
        Forall (fun a => is_Clone a = false) (trace s')
    end).
Proof.
  intros Hp Hne Hnone Hs.
  assert (Ht : truthy (Some tname) = true) by (by destruct tname).
  assert (Hsnoc : forall tr t, Forall (fun a => is_view a = true) tr ->
            Forall (fun a => is_view a = true) (tr ++ [CreateContainerView t]))
    by (intros; apply Forall_app; split; [done|by repeat constructor]).
  unfold clone_vm, customization_source. rewrite Hp, Ht. cbn [py_str].
  exec.
  all: try congruence.
  all: unfold log; cbn [trace].
  all: try (split; [reflexivity|apply views_no_clone_snoc]).
  all: by repeat apply Hsnoc.
Qed.

(** C8. When a customization template is named and its lookup returns no
    spec, the run ends in a failure payload with a message and its trace
    holds no clone request, for every inventory and every other parameter;
    a run that got as far as the lookup fails with the message that the
    customization template was not found. *)
Theorem missing_customization_spec_fails (fuel : nat) (w : World)
    (p : Params) (tname : string) :
  customization_template p = Some tname ->
  tname <> "" ->
  customizationSpecs w tname = None ->
  exists tr kw,
    main fuel w p = Some (tr, FailJson kw) /\
    Forall (fun a => is_Clone a = false) tr /\
    is_Some (kw !! "msg") /\
    (GetCustomizationSpec tname ∈ tr ->
     kw = {[ "msg" := VStr "Customization Template None not found" ]}).
Proof.
  intros Hp Hne Hnone.
  assert (Hrun : post (main_body fuel w p) init (fun s r =>
    exists kw, r = SysExit (FailJson kw) /\
      Forall (fun a => is_Clone a = false) (trace s) /\
      is_Some (kw !! "msg") /\
      (GetCustomizationSpec tname ∈ trace s ->
       kw = {[ "msg" := VStr "Customization Template None not found" ]}))).
  { unfold main_body. apply post_bind, post_get_obj. intros template.
    unfold through. destruct template as [template|].
    - apply post_try_except. eapply post_mono.
      + apply (clone_vm_missing_spec fuel w template p tname _ Hp Hne Hnone).
        by repeat constructor.
      + intros s' [[]|e|o] HQ; [done|..].
        * apply post_lift. unfold fail_json. eexists. split; [reflexivity|].
          split; [by apply views_no_clone|].
          split; [by rewrite lookup_singleton_eq|].
          intros Hin. by apply views_no_lookup in Hin.
        * destruct HQ as [-> Hc]. eexists. split; [reflexivity|].
          split; [done|]. split; [by rewrite lookup_singleton_eq|done].
    - apply post_lift. unfold fail_json. eexists. split; [reflexivity|].
      split; [by repeat constructor|].
      split; [by rewrite lookup_singleton_eq|].
      intros Hin. apply views_no_lookup in Hin; [done|by repeat constructor]. }
  unfold main. unfold post in Hrun.
  destruct (main_body fuel w p init) as [[s' r]|]; [|done].
  destruct Hrun as (kw & -> & Hc & Hmsg & Hkw). by exists (trace s'), kw.
Qed.

Lemma missing_customization_spec_fails_witness :
  customization_template (scenarios.playbook (Some "win2019-domain")) =
    Some "win2019-domain" /\
  "win2019-domain" <> "" /\
  customizationSpecs
    (scenarios.vcenter scenarios.succeeding_task scenarios.only_progress)
    "win2019-domain" = None /\
  exists tr kw,
    main 0 (scenarios.vcenter scenarios.succeeding_task
              scenarios.only_progress)
      (scenarios.playbook (Some "win2019-domain")) = Some (tr, FailJson kw) /\
    Forall (fun a => is_Clone a = false) tr /\
    is_Some (kw !! "msg") /\
    (GetCustomizationSpec "win2019-domain" ∈ tr ->
     kw = {[ "msg" := VStr "Customization Template None not found" ]}).
Proof.
  assert (Hne : "win2019-domain" <> "") by discriminate.
  split; [reflexivity|]. split; [exact Hne|]. split; [reflexivity|].
  exact (missing_customization_spec_fails 0
    (scenarios.vcenter scenarios.succeeding_task scenarios.only_progress)
    (scenarios.playbook (Some "win2019-domain")) "win2019-domain"
    eq_refl Hne eq_refl).
Defined.

(** C1 asks that a clone task ending in the error state stops the run with
    a failure before any event query. The code does otherwise: on a task
    seen in the error state [wait_for_task] returns nothing and [clone_vm]
    goes on. With a customization template the event stream of the machine
    of that name is queried and, here, a success is reported; without one
    the run ends with no payload at all. *)
Theorem task_error_not_reported :
  let w := scenarios.vcenter scenarios.failing_task
             scenarios.customized_before in
  task_state w 3 = "error" /\
  snd <$> main 10 w (scenarios.playbook (Some "linux-static")) =
    Some (ExitJson
      {[ "changed" := VBool true;
         "msg" := VStr ("Successfully Deployed and customized OS - " +:+
                        "Customization of web01 succeeded") ]}) /\
  event_queries <$> (fst <$> main 10 w (scenarios.playbook (Some "linux-static")))
    = Some [QueryEvents (Some 11%nat)] /\
  snd <$> main 10 w (scenarios.playbook None) = Some NoPayload.
Proof. vm_compute. repeat split; reflexivity. Qed.

(** C5 asks for a success payload after every successful run. A clone run
    without customization template whose task ends in the success state
    submits the clone, waits for the task and returns from [main] without
    any payload. *)
Theorem plain_clone_success_reports_nothing :
  let w := scenarios.vcenter scenarios.succeeding_task
             scenarios.only_progress in
  task_state w 4 = "success" /\
  length <$> (filter (fun a => is_Clone a = true) <$>
                (fst <$> main 10 w (scenarios.playbook None))) = Some 1%nat /\
  snd <$> main 10 w (scenarios.playbook None) = Some NoPayload.
Proof. vm_compute. repeat split; reflexivity. Qed.

End clone_facts.

(** * Properties of the deploy workflow *)

Module deploy_facts.
Import vmware_ovf_deploy.

(** C4 asks that every nonzero exit code of the tool gives a failure
    payload. The code tests [rc < 0] only: whenever the tool exits with a
    positive code, the run hands back the success payload with the captured
    standard output. *)
Theorem positive_exit_code_reported_as_success (p : Params)
    (run_command : string -> RunResult) (command : string) (rc : Z)
    (out err : string) :
  build_command p = inr command ->
  run_command command = Completed rc out err ->
  0 < rc ->
  main false run_command p =
  ([command], ExitJson {[ "changed" := VBool true; "stdout" := VStr out ]}).
Proof.
  intros Hc Hrun Hrc. unfold main. rewrite Hc, Hrun.
  by rewrite bool_decide_eq_false_2 by lia.
Qed.

Lemma positive_exit_code_reported_as_success_witness :
  0 < 1 /\
  snd (main false
         (fun _ => Completed 1 "" "Error: cannot parse locator")
         scenarios.deploy_playbook) =
  ExitJson {[ "changed" := VBool true; "stdout" := VStr "" ]}.
Proof.
  assert (H01 : 0 < 1) by reflexivity.
  split; [exact H01|].
  destruct (build_command scenarios.deploy_playbook) as [key|command] eqn:Hc;
    [discriminate Hc|].
  by rewrite (positive_exit_code_reported_as_success
                scenarios.deploy_playbook _ command 1 ""
                "Error: cannot parse locator" Hc eq_refl H01).
Defined.

Lemma append_assoc (a b c : string) : (a +:+ b) +:+ c = a +:+ (b +:+ c).
Proof.
  induction a as [|x a IH]; [reflexivity|].
  change (String x ((a +:+ b) +:+ c) = String x (a +:+ (b +:+ c))).
  by rewrite IH.
Qed.

(** C7, as the code has it. With all flags false, one network pair and one
    property, the command line is [ovftool], the name, datastore, disk mode
    and network tokens in that order, the property token, the OVF path and
    the locator, in which the user name and the password each stand between
    double quotes; every value is copied as it is, whatever characters it
    holds.  For the values of the claim this is the second line. *)
Theorem build_command_flags_false (vm ds dm A B k v ovf user pass host inv
    : string) :
  build_command
    (mkParams vm false ds dm {[ "ovf_name" := A; "target_name" := B ]}
       false false false false (Some false) [(k, v)] ovf user pass host inv) =
  inr ("ovftool --name=" +:+ dq +:+ vm +:+ dq +:+
       " --datastore=" +:+ dq +:+ ds +:+ dq +:+
       " --diskMode=" +:+ dm +:+
       " --net:" +:+ dq +:+ A +:+ dq +:+ "=" +:+ dq +:+ B +:+ dq +:+
       " --prop:" +:+ k +:+ "=" +:+ v +:+
       " " +:+ ovf +:+
       " vi://" +:+ dq +:+ user +:+ dq +:+ ":" +:+ dq +:+ pass +:+ dq +:+
       "@" +:+ host +:+ inv) /\
  build_command
    (mkParams "x" false "ds1" "thin"
       {[ "ovf_name" := "A"; "target_name" := "B" ]}
       false false false false (Some false) [("k", "v")] ovf user pass host
       inv) =
  inr ("ovftool --name=" +:+ dq +:+ "x" +:+ dq +:+
       " --datastore=" +:+ dq +:+ "ds1" +:+ dq +:+
       " --diskMode=thin" +:+
       " --net:" +:+ dq +:+ "A" +:+ dq +:+ "=" +:+ dq +:+ "B" +:+ dq +:+
       " --prop:k=v " +:+ ovf +:+
       " vi://" +:+ dq +:+ user +:+ dq +:+ ":" +:+ dq +:+ pass +:+ dq +:+
       "@" +:+ host +:+ inv).
Proof.
  split.
  all: unfold build_command, flag, add_properties;
    cbn [network_map accept_all_eulas enable_hidden_properties no_ssl_verify
         machine_output power_on wait_for_ip properties vm_name data_store
         disk_mode ovf_path vcenter_username vcenter_password vcenter_host
         vcenter_inventory_path from_option id foldl fst snd].
  all: assert (Ho : forall a b : string,
         ({[ "ovf_name" := a; "target_name" := b ]} : gmap string string)
           !! "ovf_name" = Some a) by reflexivity.
  all: assert (Ht : forall a b : string,
         ({[ "ovf_name" := a; "target_name" := b ]} : gmap string string)
           !! "target_name" = Some b) by reflexivity.
  all: rewrite Ho, Ht; f_equal.
  all: rewrite !append_assoc; reflexivity.
Qed.

(** C7 as stated fails on the locator: the command line does not end with
    the OVF path followed by [vi://admin:secret@vc01/DC1/host/cl1], since
    the code puts the user name and the password between double quotes. *)
Lemma build_command_locator_counterexample :
  ~ (exists command,
       build_command scenarios.deploy_playbook = inr command /\
       ends_with command
         "/srv/ova/app.ova vi://admin:secret@vc01/DC1/host/cl1").
Proof.
  intros (command & Hc & Hend). vm_compute in Hc.
  injection Hc as <-. unfold ends_with in Hend.
  apply (bool_decide_pack _) in Hend. vm_compute in Hend. done.
Qed.

End deploy_facts.

(** * Further properties of the clone workflow: the two waits *)

Module wait_facts.
Import vmware_clone_template clone_facts.

(** ** Waiting for the task *)

Lemma after_reads_add (n m : nat) (s : St) :
  after_reads m (after_reads n s) = after_reads (n + m) s.
Proof.
  unfold after_reads. cbn [views reads queries trace].
  by rewrite <- app_assoc, <- replicate_add, Nat.add_assoc.
Qed.

Lemma wait_for_task_idle (fuel : nat) (w : World) (s : St) :
  idle_turn w (reads s) ->
  wait_for_task (S fuel) w s = wait_for_task fuel w (after_reads 2 s).
Proof.
  intros [Hs He]. cbn [wait_for_task].
  unfold bind, read_task_state, log. cbn [views reads queries trace].
  rewrite bool_decide_eq_false_2 by done.
  cbn [views reads queries trace].
  rewrite bool_decide_eq_false_2 by done.
  f_equal. unfold after_reads. rewrite <- app_assoc. f_equal. lia.
Qed.

Lemma wait_for_task_idle_turns (k fuel : nat) (w : World) (s : St) :
  (forall i, (i < k)%nat -> idle_turn w (reads s + 2 * i)) ->
  wait_for_task (k + fuel) w s = wait_for_task fuel w (after_reads (2 * k) s).
Proof.
  revert s. induction k as [|k IH]; intros s Hidle.
  - unfold after_reads. simpl. rewrite app_nil_r, Nat.add_0_r. by destruct s.
  - cbn [Nat.add]. rewrite wait_for_task_idle.
    + rewrite IH.
      * rewrite after_reads_add. do 2 f_equal. lia.
      * intros i Hi. unfold after_reads. cbn [reads].
        replace (reads s + 2 + 2 * i)%nat with (reads s + 2 * S i)%nat by lia.
        apply Hidle. lia.
    + specialize (Hidle 0%nat). rewrite Nat.mul_0_r, Nat.add_0_r in Hidle.
      apply Hidle. lia.
Qed.

(** X1. After [k] turns that go round again, a task seen in the success
    state at the first test of the next turn makes [wait_for_task] return
    the task result; the wait made 2k+1 reads of the state and did nothing
    else (no sleep between the reads). *)
Theorem wait_for_task_success (k fuel : nat) (w : World) (s : St) :
  (forall i, (i < k)%nat -> idle_turn w (reads s + 2 * i)) ->
  task_state w (reads s + 2 * k) = "success" ->
  (k < fuel)%nat ->
  wait_for_task fuel w s =
  Some (after_reads (2 * k + 1) s, Val (Some (task_result w))).
Proof.
  intros Hidle Hsucc Hfuel.
  replace fuel with (k + S (fuel - S k))%nat by lia.
  rewrite wait_for_task_idle_turns by done.
  cbn [wait_for_task]. unfold bind, read_task_state, log.
  cbn [after_reads views reads queries trace].
  rewrite Hsucc. rewrite bool_decide_eq_true_2 by done.
  unfold ret, after_reads. do 2 f_equal. f_equal; [lia|].
  by rewrite <- app_assoc, replicate_add.
Qed.

Lemma wait_for_task_success_witness :
  (forall i, (i < 2)%nat ->
     idle_turn (scenarios.vcenter scenarios.succeeding_task
                  scenarios.only_progress) (reads init + 2 * i)) /\
  wait_for_task 3
    (scenarios.vcenter scenarios.succeeding_task scenarios.only_progress)
    init =
  Some (after_reads 5 init, Val (Some 12%nat)).
Proof.
  assert (Hidle : forall i, (i < 2)%nat ->
     idle_turn (scenarios.vcenter scenarios.succeeding_task
                  scenarios.only_progress) (reads init + 2 * i)).
  { intros [|[|i]] Hi; [split; discriminate..|lia]. }
  split; [exact Hidle|].
  exact (wait_for_task_success 2 3
    (scenarios.vcenter scenarios.succeeding_task scenarios.only_progress)
    init Hidle eq_refl (le_n 3)).
Defined.

(** X2. After [k] turns that go round again, a task that is not in the
    success state at the first test of the next turn and is in the error
    state at its second test ends the wait: [wait_for_task] returns [None],
    with no exception and no failure payload, after 2k+2 reads. *)
Theorem wait_for_task_error (k fuel : nat) (w : World) (s : St) :
  (forall i, (i < k)%nat -> idle_turn w (reads s + 2 * i)) ->
  task_state w (reads s + 2 * k) <> "success" ->
  task_state w (S (reads s + 2 * k)) = "error" ->
  (k < fuel)%nat ->
  wait_for_task fuel w s = Some (after_reads (2 * k + 2) s, Val None).
Proof.
  intros Hidle Hsucc Herr Hfuel.
  replace fuel with (k + S (fuel - S k))%nat by lia.
  rewrite wait_for_task_idle_turns by done.
  cbn [wait_for_task]. unfold bind, read_task_state, log.
  cbn [after_reads views reads queries trace].
  rewrite bool_decide_eq_false_2 by done.
  cbn [views reads queries trace].
  rewrite Herr. rewrite bool_decide_eq_true_2 by done.
  unfold ret, after_reads. do 2 f_equal. f_equal.
  - lia.
  - by rewrite <- !app_assoc, replicate_add.
Qed.

Lemma wait_for_task_error_witness :
  (forall i, (i < 1)%nat ->
     idle_turn (scenarios.vcenter scenarios.failing_task
                  scenarios.only_progress) (reads init + 2 * i)) /\
  wait_for_task 2
    (scenarios.vcenter scenarios.failing_task scenarios.only_progress) init =
  Some (after_reads 4 init, Val None).
Proof.
  assert (Hidle : forall i, (i < 1)%nat ->
     idle_turn (scenarios.vcenter scenarios.failing_task
                  scenarios.only_progress) (reads init + 2 * i)).
  { intros [|i] Hi; [split; discriminate|lia]. }
  assert (Hs : task_state (scenarios.vcenter scenarios.failing_task
                 scenarios.only_progress) (reads init + 2 * 1) <> "success")
    by discriminate.
  split; [exact Hidle|].
  exact (wait_for_task_error 1 2
    (scenarios.vcenter scenarios.failing_task scenarios.only_progress)
    init Hidle Hs eq_refl (le_n 2)).
Defined.

(** X3. While the task is in neither of the two states, the loop goes on:
    however many turns are allowed, [wait_for_task] has not returned.  The
    wait has no bound of its own. *)
Theorem wait_for_task_unbounded (w : World) (fuel : nat) (s : St) :
  (forall n, task_state w n <> "success" /\ task_state w n <> "error") ->
  wait_for_task fuel w s = None.
Proof.
  intros Hrun. revert s. induction fuel as [|fuel IH]; intros s; [done|].
  rewrite wait_for_task_idle; [apply IH|].
  split; apply Hrun.
Qed.

Lemma wait_for_task_unbounded_witness :
  (forall n, task_state (scenarios.vcenter (fun _ => "running")
                           scenarios.only_progress) n <> "success" /\
             task_state (scenarios.vcenter (fun _ => "running")
                           scenarios.only_progress) n <> "error") /\
  wait_for_task 1000
    (scenarios.vcenter (fun _ => "running") scenarios.only_progress) init =
  None.
Proof.
  assert (Hrun : forall n,
    task_state (scenarios.vcenter (fun _ => "running")
                  scenarios.only_progress) n <> "success" /\
    task_state (scenarios.vcenter (fun _ => "running")
                  scenarios.only_progress) n <> "error")
    by (intros n; split; discriminate).
  split; [exact Hrun|].
  exact (wait_for_task_unbounded _ 1000 init Hrun).
Defined.

(** ** Scanning and polling for customization events *)

Lemma terminal_kind_Some (event_type : string) (K : TerminalEventKind) :
  terminal_kind event_type = Some K -> event_type = kind_name K.
Proof.
  unfold terminal_kind, kinds. rewrite !filter_cons, filter_nil.
  repeat case_decide; simpl; intros [= <-]; done.
Qed.

Lemma check_events_from_prefix (cs : string) (pre post : list Event)
    (e : Event) (K : TerminalEventKind) :
  Forall non_terminal pre ->
  _wsdlName e = kind_name K ->
  check_events_from cs (pre ++ e :: post) =
  SysExit (reported K (fullFormattedMessage e)).
Proof.
  intros Hpre HK. revert cs. induction Hpre as [|x pre Hx _ IH]; intros cs.
  - by apply check_events_from_terminal.
  - rewrite <- app_comm_cons, check_events_from_skip by done. apply IH.
Qed.

(** A batch either holds no terminal event or splits at its first one. *)
Lemma batch_cases (evs : list Event) :
  Forall non_terminal evs \/
  exists pre e post K,
    evs = pre ++ e :: post /\ Forall non_terminal pre /\
    _wsdlName e = kind_name K.
Proof.
  induction evs as [|x evs IH]; [by left|].
  destruct (terminal_kind (_wsdlName x)) as [K|] eqn:Hx.
  - right. exists [], x, evs, K. split; [done|]. split; [done|].
    by apply terminal_kind_Some.
  - destruct IH as [Hq|(pre & e & post & K & -> & Hpre & HK)].
    + left. by constructor.
    + right. exists (x :: pre), e, post, K. split; [done|].
      split; [by constructor|done].
Qed.

(** X4. [check_events] returns to its caller exactly when the batch holds
    no terminal event; otherwise it leaves the process with the outcome of
    a terminal kind, and in no case does it raise an exception. *)
Theorem check_events_returns_iff_quiet (evs : list Event) :
  ((exists status, check_events evs = Val status) <->
   Forall non_terminal evs) /\
  (forall e, check_events evs <> Raise e) /\
  (forall o, check_events evs = SysExit o -> customization_ended o).
Proof.
  unfold check_events.
  destruct (batch_cases evs) as [Hq|(pre & e & post & K & -> & Hpre & HK)].
  - rewrite check_events_from_quiet by done. repeat split; try done.
    by eexists.
  - rewrite (check_events_from_prefix _ _ _ _ K) by done.
    repeat split; try done.
    + by intros [status Hst].
    + intros Hq. apply Forall_app in Hq as [_ Hq].
      apply Forall_cons in Hq as [He _]. unfold non_terminal in He.
      by rewrite HK, terminal_kind_name in He.
    + intros o [= <-]. by eexists _, _.
Qed.

Lemma customization_wait_exit (w : World) (vm : string) (fuel : nat)
    (wt : Z) (s : St) (o : Outcome) :
  check_events (fetched w vm s) = SysExit o ->
  customization_wait (S fuel) w vm wt s = Some (queried w vm s, SysExit o).
Proof.
  intros Hev. unfold fetched in Hev.
  cbn [customization_wait].
  unfold bind, get_events, bind, get_obj, lift, log.
  cbn [views reads queries trace]. rewrite Hev.
  unfold queried. by rewrite <- !app_assoc.
Qed.

Lemma customization_wait_first (w : World) (vm : string) (k : nat) :
  forall (fuel : nat) (wt : Z) (s : St) (o : Outcome),
  (forall i, (i < k)%nat ->
     Forall non_terminal (fetched w vm (Nat.iter i (polled w vm) s))) ->
  check_events (fetched w vm (Nat.iter k (polled w vm) s)) = SysExit o ->
  wt + 15 * Z.of_nat k <= MAX_WAIT_TIME ->
  (k < fuel)%nat ->
  customization_wait fuel w vm wt s =
  Some (queried w vm (Nat.iter k (polled w vm) s), SysExit o).
Proof.
  induction k as [|k IH]; intros fuel wt s o Hq Hev Hwt Hfuel.
  - destruct fuel as [|fuel]; [lia|]. by apply customization_wait_exit.
  - destruct fuel as [|fuel]; [lia|].
    rewrite (customization_wait_step _ _ _ _ _ (last_status (fetched w vm s))).
    + rewrite bool_decide_eq_false_2 by (unfold MAX_WAIT_TIME in *; lia).
      rewrite (IH fuel (wt + 15) (polled w vm s) o).
      * by rewrite iter_polled_swap.
      * intros i Hi. rewrite iter_polled_swap. apply (Hq (S i)). lia.
      * by rewrite iter_polled_swap.
      * lia.
      * lia.
    + apply check_events_from_quiet. apply (Hq 0%nat). lia.
Qed.

(** X5. The polling loop ends at the first batch that holds a terminal
    event: when the first [k] batches (k at most 240) hold none and the
    next one has [e] of kind [K] as its first terminal event, the loop
    leaves with the outcome of [K] for [e] right after fetching that batch,
    without the sleep of that iteration. *)
Theorem customization_wait_first_terminal (w : World) (vm : string)
    (k fuel : nat) (s : St) (pre post : list Event) (e : Event)
    (K : TerminalEventKind) :
  (forall i, (i < k)%nat ->
     Forall non_terminal (fetched w vm (Nat.iter i (polled w vm) s))) ->
  fetched w vm (Nat.iter k (polled w vm) s) = pre ++ e :: post ->
  Forall non_terminal pre ->
  _wsdlName e = kind_name K ->
  (k <= 240)%nat ->
  (k < fuel)%nat ->
  customization_wait fuel w vm 0 s =
  Some (queried w vm (Nat.iter k (polled w vm) s),
        SysExit (reported K (fullFormattedMessage e))).
Proof.
  intros Hq Hev Hpre HK Hk Hfuel.
  apply customization_wait_first; [done| |unfold MAX_WAIT_TIME; lia|done].
  rewrite Hev. by apply check_events_from_prefix.
Qed.

Lemma customization_wait_first_terminal_witness :
  (forall i, (i < 2)%nat ->
     Forall non_terminal
       (fetched (scenarios.vcenter scenarios.succeeding_task
                   scenarios.sysprep_fails) "web01"
          (Nat.iter i
             (polled (scenarios.vcenter scenarios.succeeding_task
                        scenarios.sysprep_fails) "web01") init))) /\
  customization_wait 3
    (scenarios.vcenter scenarios.succeeding_task scenarios.sysprep_fails)
    "web01" 0 init =
  Some (queried (scenarios.vcenter scenarios.succeeding_task
                   scenarios.sysprep_fails) "web01"
          (Nat.iter 2
             (polled (scenarios.vcenter scenarios.succeeding_task
                        scenarios.sysprep_fails) "web01") init),
        SysExit (FailJson
          {[ "changed" := VBool true;
             "msg" := VStr ("Customization Failed - Sysprep Failed - " +:+
                            "Sysprep did not finish") ]})).
Proof.
  assert (Hq : forall i, (i < 2)%nat ->
     Forall non_terminal
       (fetched (scenarios.vcenter scenarios.succeeding_task
                   scenarios.sysprep_fails) "web01"
          (Nat.iter i
             (polled (scenarios.vcenter scenarios.succeeding_task
                        scenarios.sysprep_fails) "web01") init))).
  { intros [|[|i]] Hi; [repeat constructor..|lia]. }
  assert (Hpre : Forall non_terminal (scenarios.only_progress 2 (Some 11%nat)))
    by (repeat constructor).
  split; [exact Hq|].
  exact (customization_wait_first_terminal
    (scenarios.vcenter scenarios.succeeding_task scenarios.sysprep_fails)
    "web01" 2 3 init (scenarios.only_progress 2 (Some 11%nat))
    [mkEvent "VmPoweredOffEvent" "web01 is powered off"]
    (mkEvent "CustomizationSysprepFailed" "Sysprep did not finish")
    SysprepFailed Hq eq_refl Hpre eq_refl
    (proj1 (Nat.leb_le 2 240) eq_refl) (le_n 3)).
Defined.

Lemma customization_wait_bounded (w : World) (vm : string) (r : nat) :
  forall (fuel : nat) (wt : Z) (s : St),
  wt + 15 * Z.of_nat r = MAX_WAIT_TIME ->
  (r < fuel)%nat ->
  exists s' o,
    customization_wait fuel w vm wt s = Some (s', SysExit o) /\
    (timed_out o \/ customization_ended o) /\
    (queries s < queries s' <= queries s + S r)%nat /\
    reads s' = reads s.
Proof.
  induction r as [|r IH]; intros fuel wt s Hwt Hfuel.
  all: destruct fuel as [|fuel]; [lia|].
  all: destruct (batch_cases (fetched w vm s))
         as [Hq|(pre & e & post & K & Hev & Hpre & HK)].
  all: try (exists (queried w vm s), (reported K (fullFormattedMessage e));
            split; [apply customization_wait_exit; rewrite Hev;
                    by apply check_events_from_prefix|];
            split; [right; by eexists _, _|];
            unfold queried; cbn [queries reads]; split; [lia|done]).
  - exists (polled w vm s). eexists. split.
    + rewrite (customization_wait_step _ _ _ _ _
                 (last_status (fetched w vm s)))
        by (by apply check_events_from_quiet).
      by rewrite bool_decide_eq_true_2 by (unfold MAX_WAIT_TIME in *; lia).
    + split; [left; by eexists|].
      unfold polled; cbn [queries reads]. split; [lia|done].
  - destruct (IH fuel (wt + 15) (polled w vm s)) as (s' & o & Hrun & Ho & Hn & Hr);
      [lia..|].
    exists s', o. split.
    + rewrite (customization_wait_step _ _ _ _ _
                 (last_status (fetched w vm s)))
        by (by apply check_events_from_quiet).
      by rewrite bool_decide_eq_false_2 by (unfold MAX_WAIT_TIME in *; lia).
    + split; [done|]. unfold polled in Hn, Hr. cbn [queries reads] in Hn, Hr.
      split; [lia|done].
Qed.

(** X6. Whatever the event stream answers, the polling loop started at
    [wait_time = 0] ends within 241 event queries: it leaves the process
    either with the outcome of a terminal event or with the time-out
    failure, and never returns to its caller or raises. *)
Theorem customization_wait_terminates (w : World) (vm : string) (fuel : nat)
    (s : St) :
  (241 <= fuel)%nat ->
  exists s' o,
    customization_wait fuel w vm 0 s = Some (s', SysExit o) /\
    (timed_out o \/ customization_ended o) /\
    (queries s < queries s' <= queries s + 241)%nat /\
    reads s' = reads s.
Proof.
  intros Hfuel. apply (customization_wait_bounded w vm 240); [done|lia].
Qed.

Lemma customization_wait_terminates_witness :
  (241 <= 241)%nat /\
  exists s' o,
    customization_wait 241
      (scenarios.vcenter scenarios.failing_task scenarios.customized_before)
      "web01" 0 init = Some (s', SysExit o) /\
    (timed_out o \/ customization_ended o) /\
    (queries init < queries s' <= queries init + 241)%nat /\
    reads s' = reads init.
Proof.
  split; [exact (le_n 241)|].
  exact (customization_wait_terminates
    (scenarios.vcenter scenarios.failing_task scenarios.customized_before)
    "web01" 241 init (le_n 241)).
Defined.

End wait_facts.

(** * Further properties of the clone workflow: whole runs *)

Module run_facts.
Import vmware_clone_template clone_facts wait_facts.

Lemma ensures_bind {A B} (m : M A) (k : A -> M B) (s : St)
    (Q : St -> Res B -> Prop) :
  ensures m s (onward k Q) -> ensures (bind m k) s Q.
Proof.
  unfold ensures, onward, bind. intros Hm s' r.
  destruct (m s) as [[s1 [a|e|o]]|] eqn:Hms; [|intros [= <- <-]..|done].
  - apply (Hm s1 (Val a) eq_refl).
  - apply (Hm s1 (Raise e) eq_refl).
  - apply (Hm s1 (SysExit o) eq_refl).
Qed.

Lemma ensures_try_except {A} (m : M A) (h : PyExc -> M A) (s : St)
    (Q : St -> Res A -> Prop) :
  ensures m s (fun s' r => match r with
                           | Raise e => ensures (h e) s' Q
                           | _ => Q s' r
                           end) ->
  ensures (try_except m h) s Q.
Proof.
  unfold ensures, try_except. intros Hm s' r.
  destruct (m s) as [[s1 [a|e|o]]|] eqn:Hms; [intros [= <- <-]| |intros [= <- <-]|done].
  - apply (Hm s1 (Val a) eq_refl).
  - apply (Hm s1 (Raise e) eq_refl).
  - apply (Hm s1 (SysExit o) eq_refl).
Qed.

Lemma ensures_mono {A} (m : M A) (s : St) (Q Q' : St -> Res A -> Prop) :
  ensures m s Q -> (forall s' r, Q s' r -> Q' s' r) -> ensures m s Q'.
Proof. unfold ensures. eauto. Qed.

Lemma ensures_get_obj (w : World) (t : vimtype) (name : option string)
    (s : St) (Q : St -> Res (option moref) -> Prop) :
  Q (mkSt (S (views s)) (reads s) (queries s)
       (trace s ++ [CreateContainerView t]))
    (Val (get_obj_view (vmware_clone_template.name w) (view w (views s) t)
            name)) ->
  ensures (get_obj w t name) s Q.
Proof. intros HQ s' r [= <- <-]. apply HQ. Qed.

Lemma ensures_lift {A} (r : Res A) (s : St) (Q : St -> Res A -> Prop) :
  Q s r -> ensures (lift r) s Q.
Proof. by intros HQ s' r' [= <- <-]. Qed.

Lemma ensures_ret {A} (a : A) (s : St) (Q : St -> Res A -> Prop) :
  Q s (Val a) -> ensures (ret a) s Q.
Proof. by intros HQ s' r' [= <- <-]. Qed.

Lemma ensures_call_GetCustomizationSpec (w : World) (name : string) (s : St)
    (Q : St -> Res (option Specification) -> Prop) :
  Q (log (GetCustomizationSpec name) s) (Val (customizationSpecs w name)) ->
  ensures (call_GetCustomizationSpec w name) s Q.
Proof. by intros HQ s' r' [= <- <-]. Qed.

Lemma ensures_call_Clone (template : moref) (folder : option moref)
    (name : string) (spec : CloneSpec) (s : St)
    (Q : St -> Res unit -> Prop) :
  Q (log (Clone template folder name spec) s) (Val tt) ->
  ensures (call_Clone template folder name spec) s Q.
Proof. by intros HQ s' r' [= <- <-]. Qed.

(** The task wait only reads the task state, and it returns a value. *)
Lemma ensures_wait_for_task (fuel : nat) (w : World) (s : St) :
  ensures (wait_for_task fuel w) s (fun s' r =>
    (exists o, r = Val o) /\ exists n, s' = after_reads n s).
Proof.
  revert s. induction fuel as [|fuel IH]; intros s s' r; [done|].
  cbn [wait_for_task]. unfold bind, read_task_state, log, ret.
  cbn [views reads queries trace].
  case_bool_decide.
  - intros [= <- <-]. split; [by eexists|]. exists 1%nat.
    unfold after_reads. f_equal. lia.
  - cbn [views reads queries trace]. case_bool_decide.
    + intros [= <- <-]. split; [by eexists|]. exists 2%nat.
      unfold after_reads. rewrite <- app_assoc. f_equal. lia.
    + intros Hrun. apply IH in Hrun as [Hr [n ->]]. split; [done|].
      exists (2 + n)%nat. unfold after_reads. cbn [views reads queries trace].
      rewrite <- !app_assoc. f_equal; first [lia|done].
Qed.

(** The customization wait only makes the calls of its loop, and it leaves
    the process, on a terminal event or on the time-out. *)
Lemma ensures_customization_wait (fuel : nat) (w : World) (vm : string)
    (wt : Z) (s : St) :
  ensures (customization_wait fuel w vm wt) s (fun s' r =>
    exists o tr,
      r = SysExit o /\ (timed_out o \/ customization_ended o) /\
      trace s' = trace s ++ tr /\ Forall (fun a => is_poll a = true) tr).
Proof.
  revert wt s. induction fuel as [|fuel IH]; intros wt s s' r; [done|].
  destruct (batch_cases (fetched w vm s))
    as [Hq|(pre & e & post & K & Hev & Hpre & HK)].
  - rewrite (customization_wait_step _ _ _ _ _ (last_status (fetched w vm s)))
      by (by apply check_events_from_quiet).
    case_bool_decide.
    + intros [= <- <-]. eexists _, _. split; [reflexivity|].
      split; [left; by eexists|]. split; [reflexivity|]. by repeat constructor.
    + intros Hrun. apply IH in Hrun as (o & tr & -> & Ho & Htr & Hp).
      exists o. eexists. split; [done|]. split; [done|].
      rewrite Htr. unfold polled. cbn [trace]. rewrite <- app_assoc.
      split; [reflexivity|].
      apply Forall_app. split; [by repeat constructor|done].
  - rewrite (customization_wait_exit _ _ _ _ _
               (reported K (fullFormattedMessage e)))
      by (rewrite Hev; by apply check_events_from_prefix).
    intros [= <- <-]. eexists _, _. split; [reflexivity|].
    split; [right; by eexists _, _|]. split; [reflexivity|].
    by repeat constructor.
Qed.

(** From a property of the body of [main] to the result of [main]. *)
Lemma main_ensures (fuel : nat) (w : World) (p : Params)
    (P : list Action -> Outcome -> Prop) :
  ensures (main_body fuel w p) init (fun s r => P (trace s) (outcome_of r)) ->
  forall tr o, main fuel w p = Some (tr, o) -> P tr o.
Proof.
  unfold ensures, main. intros Hrun tr o.
  destruct (main_body fuel w p init) as [[s r]|]; [|done].
  specialize (Hrun s r eq_refl).
  destruct r as [[]|e|o']; intros [= <- <-]; exact Hrun.
Qed.

(** Symbolic execution under [ensures]. *)
Ltac pexec :=
  repeat first
    [ progress unfold onward
    | progress cbn beta iota
    | progress cbn [views reads queries trace init log]
    | match goal with
      | |- ensures (bind _ _) _ _ => apply ensures_bind
      | |- ensures (get_obj _ _ _) _ _ => apply ensures_get_obj
      | |- ensures (call_GetCustomizationSpec _ _) _ _ =>
          apply ensures_call_GetCustomizationSpec
      | |- ensures (call_Clone _ _ _ _) _ _ => apply ensures_call_Clone
      | |- ensures (try_except _ _) _ _ => apply ensures_try_except
      | |- ensures (if ?b then _ else _) _ _ => destruct b eqn:?
      | |- ensures (match ?o with _ => _ end) _ _ => destruct o eqn:?
      | |- ensures (ret _) _ _ => apply ensures_ret
      | |- ensures (raise _) _ _ => apply ensures_lift
      | |- ensures (lift _) _ _ => apply ensures_lift
      | |- ensures (wait_for_task _ _) _ _ =>
          eapply ensures_mono; [apply ensures_wait_for_task|];
          intros ? ? [[? ->] [? ->]]
      | |- ensures (customization_wait _ _ _ _) _ _ =>
          eapply ensures_mono; [apply ensures_customization_wait|];
          intros ? ? (? & ? & -> & ? & ? & ?)
      end ].

Lemma clone_requests_app (tr1 tr2 : list Action) :
  clone_requests (tr1 ++ tr2) = (clone_requests tr1 + clone_requests tr2)%nat.
Proof. unfold clone_requests. by rewrite filter_app, length_app. Qed.

Lemma clone_requests_none (tr : list Action) :
  Forall (fun a => is_Clone a = false) tr -> clone_requests tr = 0%nat.
Proof.
  unfold clone_requests. induction 1 as [|a tr Ha _ IH]; [done|].
  rewrite filter_cons. by rewrite decide_False by congruence.
Qed.

Lemma reads_no_clone (n : nat) :
  Forall (fun a => is_Clone a = false) (replicate n ReadTaskState).
Proof. apply Forall_replicate. done. Qed.

Lemma clone_requests_reads (n : nat) :
  clone_requests (replicate n ReadTaskState) = 0%nat.
Proof. apply clone_requests_none, reads_no_clone. Qed.

Lemma polls_no_clone (tr : list Action) :
  Forall (fun a => is_poll a = true) tr ->
  Forall (fun a => is_Clone a = false) tr.
Proof. intros H. eapply Forall_impl; [exact H|]. by intros []. Qed.

Lemma no_clone_requested (w : World) (p : Params) (tr : list Action) :
  Forall (fun a => is_Clone a = false) tr -> Forall (requested w p) tr.
Proof. intros H. eapply Forall_impl; [exact H|]. by intros []. Qed.

Lemma clone_requests_cons (a : Action) (tr : list Action) :
  clone_requests (a :: tr) =
  ((if is_Clone a then 1 else 0) + clone_requests tr)%nat.
Proof.
  unfold clone_requests. rewrite filter_cons.
  destruct (is_Clone a); [by rewrite decide_True|by rewrite decide_False].
Qed.

(** Bring the trace of a finished run into the form of a list of calls
    followed by what the two waits appended. *)
Ltac flatten_trace :=
  repeat match goal with H : trace _ = _ |- _ => rewrite H; clear H end;
  unfold after_reads, log; cbn [trace]; rewrite <- ?app_assoc; cbn [app].

(** X7. In every run that finishes, each clone request names the template
    found at the first lookup, the target name and the power-on flag of the
    parameters, and carries a customization with exactly one adapter
    mapping, whose address is the fixed address [str(ip_address)] (the
    text [None] when no address is given); and no run makes more than one
    clone request. *)
Theorem clone_request_shape (fuel : nat) (w : World) (p : Params)
    (tr : list Action) (o : Outcome) :
  main fuel w p = Some (tr, o) ->
  Forall (requested w p) tr /\ (clone_requests tr <= 1)%nat.
Proof.
  revert tr o. apply main_ensures.
  unfold main_body, clone_vm, customization_source.
  pexec.
  all: flatten_trace.
  all: split.
  all: try (rewrite ?clone_requests_cons, ?clone_requests_app;
            cbn [is_Clone]; rewrite ?clone_requests_reads;
            try match goal with
                | H : Forall (fun a => is_poll a = true) ?x |- _ =>
                    rewrite (clone_requests_none x (polls_no_clone x H))
                end;
            change (clone_requests []) with 0%nat; lia).
  all: repeat (apply Forall_cons; split;
               [first [exact I
                      |cbn [requested location powerOn customization
                            nicSettingMap];
                       split; [assumption|]; split; [reflexivity|];
                       split; [reflexivity|]; eexists; split; reflexivity]|]).
  all: rewrite ?Forall_app; repeat split; try (by apply Forall_nil).
  all: apply no_clone_requested;
       first [apply reads_no_clone|by apply polls_no_clone].
Qed.

(** X16. What a lookup returns is one of the candidates of the view, and
    bears the name asked for when a non-empty name is given; the lookup
    comes back empty-handed exactly when no candidate bears that name or,
    for a null or empty name, when the view is empty. *)
Theorem get_obj_view_sound_complete {A : Type} (name_of : A -> string)
    (view : list A) (name : option string) :
  (forall r, get_obj_view name_of view name = Some r ->
     r ∈ view /\ (truthy name = true -> Some (name_of r) = name)) /\
  (get_obj_view name_of view name = None <->
   if truthy name then forall c, c ∈ view -> Some (name_of c) <> name
   else view = []).
Proof.
  destruct (truthy name) eqn:Hn.
  - induction view as [|c rest [IHs IHc]]; simpl; rewrite ?Hn.
    + split; [done|]. split; [|done]. intros _ c Hc. by apply elem_of_nil in Hc.
    + case_bool_decide as Hc.
      * split.
        -- intros r [= <-]. split; [by left|done].
        -- split; [done|]. intros Hall. exfalso.
           apply (Hall c); [by left|done].
      * split.
        -- intros r Hr. destruct (IHs r Hr) as [Hin Hname].
           split; [by right|done].
        -- rewrite IHc. split.
           ++ intros Hall c' Hc'. apply elem_of_cons in Hc' as [->|Hc']; [done|].
              by apply Hall.
           ++ intros Hall c' Hc'. apply Hall. by right.
  - rewrite get_obj_view_unnamed by done. split.
    + intros r Hr. split; [|done]. destruct view as [|c rest]; [done|].
      injection Hr as <-. by left.
    + by destruct view.
Qed.

Lemma clone_request_shape_witness :
  exists tr o,
    main 10 (scenarios.vcenter scenarios.succeeding_task
               scenarios.customized_before)
      (scenarios.playbook (Some "linux-static")) = Some (tr, o) /\
    Forall (requested (scenarios.vcenter scenarios.succeeding_task
                         scenarios.customized_before)
              (scenarios.playbook (Some "linux-static"))) tr /\
    (clone_requests tr <= 1)%nat.
Proof.
  destruct (main 10 (scenarios.vcenter scenarios.succeeding_task
                       scenarios.customized_before)
              (scenarios.playbook (Some "linux-static")))
    as [[tr o]|] eqn:Hm; [|vm_compute in Hm; discriminate Hm].
  exists tr, o. split; [reflexivity|].
  exact (clone_request_shape _ _ _ _ _ Hm).
Defined.





(** X10. How a clone run can end: never with an uncaught exception; with
    no payload at all only when no customization template was given; and
    with a success payload only when one was given and the polling loop
    met a [CustomizationSucceeded] event, the payload being the one that
    [check_events] builds for it. *)
Theorem clone_run_outcomes (fuel : nat) (w : World) (p : Params)
    (tr : list Action) (o : Outcome) :
  main fuel w p = Some (tr, o) ->
  (forall e, o <> Uncaught e) /\
  (o = NoPayload -> truthy (customization_template p) = false) /\
  (forall kw, o = ExitJson kw ->
     truthy (customization_template p) = true /\
     exists text, o = reported Succeeded text).
Proof.
  revert tr o. apply main_ensures.
  unfold main_body, clone_vm, customization_source.
  pexec.
  all: unfold fail_json; cbn [outcome_of].
  all: try match goal with
           | H : bool_decide (is_Some (Some _)) = false |- _ =>
               apply bool_decide_eq_false_1 in H; destruct H; by eexists
           | H : bool_decide (is_Some None) = true |- _ =>
               apply bool_decide_eq_true_1 in H; by destruct H
           end.
  all: try match goal with
           | H : timed_out _ \/ customization_ended _ |- _ =>
               destruct H as [[status ->]|([] & text & ->)]
           end.
  all: split; [done|]; split; [done|]; intros kw Hkw; try done.
  all: split; [done|]; by eexists.
Qed.

Lemma clone_run_outcomes_witness :
  exists tr o,
    main 10 (scenarios.vcenter scenarios.succeeding_task
               scenarios.customized_before)
      (scenarios.playbook (Some "linux-static")) = Some (tr, o) /\
    (forall e, o <> Uncaught e) /\
    (o = NoPayload ->
     truthy (customization_template
               (scenarios.playbook (Some "linux-static"))) = false) /\
    (forall kw, o = ExitJson kw ->
       truthy (customization_template
                 (scenarios.playbook (Some "linux-static"))) = true /\
       exists text, o = reported Succeeded text).
Proof.
  destruct (main 10 (scenarios.vcenter scenarios.succeeding_task
                       scenarios.customized_before)
              (scenarios.playbook (Some "linux-static")))
    as [[tr o]|] eqn:Hm; [|vm_compute in Hm; discriminate Hm].
  exists tr, o. split; [reflexivity|].
  exact (clone_run_outcomes _ _ _ _ _ Hm).
Defined.

(** ** A complete run *)

Lemma post_get_obj_exact (w : World) (t : vimtype) (name : option string)
    (s : St) (Q : St -> Res (option moref) -> Prop) :
  Q (mkSt (S (views s)) (reads s) (queries s)
       (trace s ++ [CreateContainerView t]))
    (Val (get_obj_view (vmware_clone_template.name w) (view w (views s) t)
            name)) ->
  post (get_obj w t name) s Q.
Proof. intros HQ. unfold post, get_obj, log. apply HQ. Qed.

Lemma post_call_Clone (template : moref) (folder : option moref)
    (name : string) (spec : CloneSpec) (s : St)
    (Q : St -> Res unit -> Prop) :
  Q (log (Clone template folder name spec) s) (Val tt) ->
  post (call_Clone template folder name spec) s Q.
Proof. done. Qed.

Lemma post_wait_for_task_success (k fuel : nat) (w : World) (s : St)
    (Q : St -> Res (option moref) -> Prop) :
  (forall i, (i < k)%nat -> idle_turn w (reads s + 2 * i)) ->
  task_state w (reads s + 2 * k) = "success" ->
  (k < fuel)%nat ->
  Q (after_reads (2 * k + 1) s) (Val (Some (task_result w))) ->
  post (wait_for_task fuel w) s Q.
Proof.
  intros Hidle Hsucc Hfuel HQ. unfold post.
  replace fuel with (k + S (fuel - S k))%nat by lia.
  rewrite wait_for_task_idle_turns by done.
  cbn [wait_for_task]. unfold bind, read_task_state, log.
  cbn [after_reads views reads queries trace].
  rewrite Hsucc. rewrite bool_decide_eq_true_2 by done.
  unfold ret.
  replace (mkSt (views s) (S (reads s + 2 * k)) (queries s)
             ((trace s ++ replicate (2 * k) ReadTaskState) ++ [ReadTaskState]))
    with (after_reads (2 * k + 1) s); [done|].
  unfold after_reads. f_equal; [lia|].
  by rewrite <- app_assoc, replicate_add.
Qed.

Lemma post_customization_wait_exit (fuel : nat) (w : World) (vm : string)
    (wt : Z) (s : St) (o : Outcome) (Q : St -> Res unit -> Prop) :
  check_events (fetched w vm s) = SysExit o ->
  (0 < fuel)%nat ->
  Q (queried w vm s) (SysExit o) ->
  post (customization_wait fuel w vm wt) s Q.
Proof.
  intros Hev Hfuel HQ. destruct fuel as [|fuel]; [lia|].
  unfold post. by rewrite (customization_wait_exit _ _ _ _ _ o).
Qed.

(** X17. The whole clone workflow on its good path. When the template is
    found, the lookups that are dereferenced find their object (a
    datacenter when no folder is named, a cluster when no resource pool is
    named, a datastore on the template when none is named), the named
    customization spec exists with at least one adapter mapping, the task
    is seen in the success state at the first test of some turn, and every
    event batch has a [CustomizationSucceeded] event as its first terminal
    event [e], the run ends with the success payload built from the
    formatted text of [e]. *)
Theorem clone_and_customize_succeeds (fuel k : nat) (w : World) (p : Params)
    (template : moref) (tname : string) (spec : Specification)
    (pre rest : list Event) (e : Event) :
  get_obj_view (name w) (view w 0 VirtualMachine) (Some (template_name p)) =
    Some template ->
  (truthy (vm_folder p) = false ->
   is_Some (get_obj_view (name w) (view w 1 Datacenter) (datacenter_name p))) ->
  (truthy (datastore_name p) = false -> datastore w template <> []) ->
  (truthy (resource_pool p) = false ->
   forall n, is_Some (get_obj_view (name w) (view w n ClusterComputeResource)
                        (cluster_name p))) ->
  customization_template p = Some tname ->
  tname <> "" ->
  customizationSpecs w tname = Some spec ->
  nicSettingMap spec <> [] ->
  (forall i, (i < k)%nat -> idle_turn w (2 * i)) ->
  task_state w (2 * k) = "success" ->
  (k < fuel)%nat ->
  (forall n o, events w n o = pre ++ e :: rest) ->
  Forall non_terminal pre ->
  _wsdlName e = "CustomizationSucceeded" ->
  snd <$> main fuel w p =
  Some (ExitJson
    {[ "changed" := VBool true;
       "msg" := VStr ("Successfully Deployed and customized OS - " +:+
                      fullFormattedMessage e) ]}).
Proof.
  intros Ht Hdc Hds Hcl Hp Hne Hspec Hnic Hidle Hsucc Hfuel Hev Hpre He.
  assert (Htr : truthy (Some tname) = true) by (by destruct tname).
  assert (Hrun : post (main_body fuel w p) init (fun s r =>
    r = SysExit (reported Succeeded (fullFormattedMessage e)))).
  { unfold main_body, clone_vm, customization_source.
    rewrite Hp, Htr. cbn [py_str].
    repeat first
      [ progress unfold through
      | progress cbn beta iota
      | progress cbn [views reads queries trace init log]
      | match goal with
        | |- post (bind _ _) _ _ => apply post_bind
        | |- post (get_obj _ _ _) _ _ => apply post_get_obj_exact
        | |- post (call_GetCustomizationSpec _ _) _ _ =>
            apply post_call_GetCustomizationSpec; rewrite Hspec
        | |- post (call_Clone _ _ _ _) _ _ => apply post_call_Clone
        | |- post (try_except _ _) _ _ => apply post_try_except
        | |- post (if ?b then _ else _) _ _ => destruct b eqn:?
        | |- post (match ?o with _ => _ end) _ _ =>
            destruct o eqn:?
        | |- post (ret _) _ _ => apply post_ret
        | |- post (raise _) _ _ => apply post_lift
        | |- post (lift _) _ _ => apply post_lift
        | |- post (wait_for_task _ _) _ _ =>
            apply (post_wait_for_task_success k); [done..|]
        | |- post (customization_wait _ _ _ _) _ _ =>
            apply (post_customization_wait_exit _ _ _ _ _
                     (reported Succeeded (fullFormattedMessage e)));
            [unfold fetched; rewrite Hev;
             by apply (check_events_from_prefix _ _ _ _ Succeeded)|lia|]
        end ].
    all: try done.
    all: exfalso; injection Ht as ->.
    all: try (by apply Hnic).
    all: try match goal with
             | H : bool_decide (is_Some (Some _)) = false |- _ =>
                 apply bool_decide_eq_false_1 in H; apply H; by eexists
             end.
    all: try (by apply Hds).
    all: try (by destruct (Hdc eq_refl) as [? ?]).
    all: match goal with
         | Heq : _ = None |- _ =>
             match type of Heq with
             | context [view _ ?n ClusterComputeResource] =>
                 destruct (Hcl eq_refl n) as [? Hx]; rewrite Heq in Hx;
                 discriminate Hx
             end
         end. }
  unfold main. unfold post in Hrun.
  destruct (main_body fuel w p init) as [[s' r]|]; [|done].
  by rewrite Hrun.
Qed.

Lemma clone_and_customize_succeeds_witness :
  snd <$> main 10 (scenarios.vcenter scenarios.succeeding_task
                     scenarios.customized_before)
            (scenarios.playbook (Some "linux-static")) =
  Some (ExitJson
    {[ "changed" := VBool true;
       "msg" := VStr ("Successfully Deployed and customized OS - " +:+
                      "Customization of web01 succeeded") ]}).
Proof.
  assert (Hidle : forall i, (i < 2)%nat ->
     idle_turn (scenarios.vcenter scenarios.succeeding_task
                  scenarios.customized_before) (2 * i)).
  { intros [|[|i]] Hi; [split; discriminate..|lia]. }
  assert (Hne : "linux-static" <> "") by discriminate.
  assert (Hnic : nicSettingMap scenarios.linux_static <> []) by discriminate.
  assert (Hpre : Forall non_terminal
            [mkEvent "VmPoweredOnEvent" "web01 is powered on"])
    by (repeat constructor).
  exact (clone_and_customize_succeeds 10 2
    (scenarios.vcenter scenarios.succeeding_task scenarios.customized_before)
    (scenarios.playbook (Some "linux-static")) 10%nat "linux-static"
    scenarios.linux_static
    [mkEvent "VmPoweredOnEvent" "web01 is powered on"] []
    (mkEvent "CustomizationSucceeded" "Customization of web01 succeeded")
    eq_refl
    (fun _ => ex_intro _ 1%nat eq_refl)
    (fun _ => ltac:(discriminate))
    (fun _ _ => ex_intro _ 4%nat eq_refl)
    eq_refl Hne eq_refl Hnic Hidle eq_refl
    (proj1 (Nat.ltb_lt 2 10) eq_refl)
    (fun _ _ => eq_refl) Hpre eq_refl).
Defined.

End run_facts.

(** * Further properties of the deploy workflow *)

Module command_facts.
Import vmware_ovf_deploy deploy_facts.










(** X13. A failure payload of the deploy run has one of two origins: the
    tool was run once and ended with a negative code, and the message is
    its captured standard error; or the process could not be started, and
    the message is the standard error stream object. It carries nothing
    else, in particular no changed-flag and no output. *)
Theorem deploy_failure_origin (check_mode : bool)
    (run_command : string -> RunResult) (p : Params) (commands : list string)
    (kw : kwargs) :
  main check_mode run_command p = (commands, FailJson kw) ->
  check_mode = false /\
  exists command,
    build_command p = inr command /\ commands = [command] /\
    ((exists rc out err,
        run_command command = Completed rc out err /\ rc < 0 /\
        kw = {[ "msg" := VStr err ]}) \/
     (exists e, run_command command = OSError e /\
                kw = {[ "msg" := VStderr ]})).
Proof.
  unfold main. destruct (build_command p) as [key|command]; [done|].
  destruct check_mode; [done|].
  destruct (run_command command) as [rc out err|e] eqn:Hrun.
  - case_bool_decide; [|done]. intros [= <- <-]. split; [done|].
    exists command. split; [done|]. split; [done|]. left. by eexists _, _, _.
  - intros [= <- <-]. split; [done|].
    exists command. split; [done|]. split; [done|]. right. by eexists.
Qed.

Lemma deploy_failure_origin_witness :
  main false (fun _ => Completed (-9) "Opening OVA source" "Killed")
    scenarios.deploy_playbook =
    (fst (main false (fun _ => Completed (-9) "Opening OVA source" "Killed")
            scenarios.deploy_playbook),
     FailJson {[ "msg" := VStr "Killed" ]}) /\
  exists command,
    build_command scenarios.deploy_playbook = inr command /\
    fst (main false (fun _ => Completed (-9) "Opening OVA source" "Killed")
           scenarios.deploy_playbook) = [command].
Proof.
  assert (Hrun : main false
            (fun _ => Completed (-9) "Opening OVA source" "Killed")
            scenarios.deploy_playbook =
    (fst (main false (fun _ => Completed (-9) "Opening OVA source" "Killed")
            scenarios.deploy_playbook),
     FailJson {[ "msg" := VStr "Killed" ]})) by reflexivity.
  split; [exact Hrun|].
  destruct (deploy_failure_origin _ _ _ _ _ Hrun)
    as (_ & command & Hc & Hcs & _).
  exists command. by split.
Defined.

(** X14. A success payload of the deploy workflow has one of two origins:
    check mode, where nothing was run and the payload carries the command
    line; or a run of the tool that ended with a code that is not
    negative, and the payload carries its captured standard output. *)
Theorem deploy_success_origin (check_mode : bool)
    (run_command : string -> RunResult) (p : Params) (commands : list string)
    (kw : kwargs) :
  main check_mode run_command p = (commands, ExitJson kw) ->
  exists command,
    build_command p = inr command /\
    ((check_mode = true /\ commands = [] /\
      kw = {[ "changed" := VBool true; "command" := VStr command ]}) \/
     (check_mode = false /\ commands = [command] /\
      exists rc out err,
        run_command command = Completed rc out err /\ 0 <= rc /\
        kw = {[ "changed" := VBool true; "stdout" := VStr out ]})).
Proof.
  unfold main. destruct (build_command p) as [key|command]; [done|].
  destruct check_mode.
  - intros [= <- <-]. exists command. split; [done|]. by left.
  - destruct (run_command command) as [rc out err|e] eqn:Hrun; [|done].
    case_bool_decide; [done|]. intros [= <- <-].
    exists command. split; [done|]. right. split; [done|]. split; [done|].
    exists rc, out, err. split; [done|]. split; [lia|done].
Qed.

Lemma deploy_success_origin_witness :
  main false (fun _ => Completed 0 "Completed successfully" "")
    scenarios.deploy_playbook =
    (fst (main false (fun _ => Completed 0 "Completed successfully" "")
            scenarios.deploy_playbook),
     ExitJson {[ "changed" := VBool true;
                 "stdout" := VStr "Completed successfully" ]}) /\
  exists command,
    build_command scenarios.deploy_playbook = inr command.
Proof.
  assert (Hrun : main false
            (fun _ => Completed 0 "Completed successfully" "")
            scenarios.deploy_playbook =
    (fst (main false (fun _ => Completed 0 "Completed successfully" "")
            scenarios.deploy_playbook),
     ExitJson {[ "changed" := VBool true;
                 "stdout" := VStr "Completed successfully" ]}))
    by reflexivity.
  split; [exact Hrun|].
  destruct (deploy_success_origin _ _ _ _ _ Hrun) as (command & Hc & _).
  by exists command.
Defined.

(** X15. The deploy run stops on an uncaught [KeyError] exactly when the
    network map lacks one of its two names; it does so in check mode too,
    before anything is run, and the error names the first missing key. *)
Theorem deploy_key_error (check_mode : bool)
    (run_command : string -> RunResult) (p : Params) :
  ((exists key, snd (main check_mode run_command p) = Uncaught key) <->
   (network_map p !! "ovf_name" = None \/
    network_map p !! "target_name" = None)) /\
  (network_map p !! "ovf_name" = None ->
   main check_mode run_command p = ([], Uncaught "'ovf_name'")) /\
  (is_Some (network_map p !! "ovf_name") ->
   network_map p !! "target_name" = None ->
   main check_mode run_command p = ([], Uncaught "'target_name'")).
Proof.
  unfold main, build_command.
  destruct (network_map p !! "ovf_name") as [o|];
    destruct (network_map p !! "target_name") as [t|].
  all: repeat split; try done.
  all: try (intros _; by eexists).
  all: try (by intros [? ?]).
  all: try (intros; by right).
  all: try (intros; by left).
  - intros [key Hk]. exfalso. revert Hk.
    destruct check_mode; [done|].
    destruct (run_command _); [case_bool_decide|]; done.
  - by intros [[=]|[=]].
Qed.

End command_facts.
